(** * Data.py: appointment normalisation and aggregation

    A shallow embedding of [src/Data.py] and the properties of its
    phone validator, age calculator, per-record normaliser and
    aggregator.

    Python values are modelled as a small universe [pyval]; a Python
    [str] is a list of Unicode code points; exceptions are explicit in
    the [result] type.  The builtins and library calls the source relies
    on ([str.isdigit], [int], [str.split], [str.join], [dict.get], UTF-8
    encoding, SHA-256, and the few pandas operations used by the
    aggregator) are modelled in the modules [Py], [Sha256] and [Pandas];
    the module [Data] follows the source function by function.  Builtins
    behave as in CPython 3.11 (Unicode 14.0.0).  The two [print] calls
    of the source are diagnostics and are not modelled; the second one
    lacks its closing quote in the source and [process_json_data] ends
    on two mis-indented lines, which the embedding reads as evidently
    meant. *)

From Stdlib Require Import ZArith NArith List String Ascii Bool Lia.
From stdpp Require Import gmap.
Import ListNotations.

Local Open Scope N_scope.
#[local] Set Warnings "-register-all".

(* ===================================================================== *)
(** * Python values, exceptions and builtins *)
(* ===================================================================== *)

Module Py.

(** The exceptions that the modelled code can raise. *)
Inductive exn : Set :=
| TypeError | AttributeError | KeyError | ValueError | IndexError
| UnicodeEncodeError.

#[global] Instance exn_eq_dec : EqDecision exn.
Proof. solve_decision. Defined.

(** Outcome of evaluating a Python expression. *)
Inductive result (A : Type) : Type :=
| Ok (a : A)
| Raise (e : exn).
Arguments Ok {A} a.
Arguments Raise {A} e.

Definition bind {A B} (m : result A) (k : A -> result B) : result B :=
  match m with
  | Ok a => k a
  | Raise e => Raise e
  end.

(** [try: body except e: handler] *)
Definition try_except {A} (body : result A) (e : exn) (handler : result A)
  : result A :=
  match body with
  | Ok a => Ok a
  | Raise e' => if bool_decide (e' = e) then handler else Raise e'
  end.

Definition is_ok {A} (m : result A) : bool :=
  match m with Ok _ => true | Raise _ => false end.

Fixpoint mapM {A B} (f : A -> result B) (l : list A) : result (list B) :=
  match l with
  | [] => Ok []
  | x :: xs =>
      bind (f x) (fun y => bind (mapM f xs) (fun ys => Ok (y :: ys)))
  end.

Notation "x <- e ;; k" := (bind e (fun x => k))
  (at level 100, e at next level, right associativity).

(** A [str] is a sequence of Unicode code points. *)
Abbreviation char := N (only parsing).
Abbreviation str := (list N) (only parsing).

(** An ASCII literal of the source, as a [str]. *)
Definition u (s : string) : str :=
  List.map N_of_ascii (list_ascii_of_string s).

(** The values that [json.load] produces, plus the float NaN that pandas
    introduces for missing cells.  JSON numbers are modelled as
    integers; [dict]s keep insertion order. *)
Inductive pyval : Type :=
| PNone
| PBool (b : bool)
| PInt (n : Z)
| PNaN
| PStr (s : str)
| PList (l : list pyval)
| PDict (d : list (str * pyval)).

Abbreviation dict := (list (str * pyval)) (only parsing).

(** ** dict operations *)

(** [d.get(k)] on the representation: the value bound to [k], if any. *)
Fixpoint dict_lookup (d : dict) (k : str) : option pyval :=
  match d with
  | [] => None
  | (k', v) :: d' => if bool_decide (k' = k) then Some v else dict_lookup d' k
  end.

(** [d[k] = v]: overwrite in place, or append a new key at the end. *)
Fixpoint dict_set (d : dict) (k : str) (v : pyval) : dict :=
  match d with
  | [] => [(k, v)]
  | (k', v') :: d' =>
      if bool_decide (k' = k) then (k', v) :: d' else (k', v') :: dict_set d' k v
  end.

Fixpoint dict_remove (d : dict) (k : str) : dict :=
  match d with
  | [] => []
  | (k', v') :: d' =>
      if bool_decide (k' = k) then d' else (k', v') :: dict_remove d' k
  end.

(** [d[k]] *)
Definition dict_getitem (d : dict) (k : str) : result pyval :=
  match dict_lookup d k with
  | Some v => Ok v
  | None => Raise KeyError
  end.

(** [d.get(k, default)] *)
Definition dict_get (d : dict) (k : str) (default : pyval) : pyval :=
  match dict_lookup d k with
  | Some v => v
  | None => default
  end.

(** [d.pop(k)] *)
Definition dict_pop (d : dict) (k : str) : result (pyval * dict) :=
  match dict_lookup d k with
  | Some v => Ok (v, dict_remove d k)
  | None => Raise KeyError
  end.

(** [obj.get(k, default)] on an arbitrary value: only a [dict] has the
    method. *)
Definition py_get (obj : pyval) (k : str) (default : pyval) : result pyval :=
  match obj with
  | PDict d => Ok (dict_get d k default)
  | _ => Raise AttributeError
  end.

(** [isinstance(v, list)] *)
Definition is_list (v : pyval) : bool :=
  match v with PList _ => true | _ => false end.

(** [v == s] for a string literal [s]. *)
Definition eq_str (v : pyval) (s : str) : bool :=
  match v with
  | PStr t => bool_decide (t = s)
  | _ => false
  end.

(** Truth value of an object, as tested by [if]. *)
Definition truthy (v : pyval) : bool :=
  match v with
  | PNone => false
  | PBool b => b
  | PInt n => negb (n =? 0)%Z
  | PNaN => true
  | PStr s => negb (bool_decide (s = []))
  | PList l => negb (bool_decide (length l = 0%nat))
  | PDict d => negb (bool_decide (length d = 0%nat))
  end.

(** [for c in v]: the items that iteration yields. *)
Definition py_iter (v : pyval) : result (list pyval) :=
  match v with
  | PStr s => Ok (List.map (fun c => PStr [c]) s)
  | PList l => Ok l
  | PDict d => Ok (List.map (fun kv => PStr (fst kv)) d)
  | _ => Raise TypeError
  end.

(** ** str methods *)

Definition in_range (c : char) (r : N * N) : bool :=
  (fst r <=? c) && (c <=? snd r).

(** Code points [c] with [chr(c).isdigit()], i.e. Numeric_Type Decimal or
    Digit (Unicode 14.0.0), as inclusive ranges. *)
Definition digit_ranges : list (N * N) :=
  [(48, 57); (178, 179); (185, 185); (1632, 1641); (1776, 1785);
   (1984, 1993); (2406, 2415); (2534, 2543); (2662, 2671); (2790, 2799);
   (2918, 2927); (3046, 3055); (3174, 3183); (3302, 3311); (3430, 3439);
   (3558, 3567); (3664, 3673); (3792, 3801); (3872, 3881); (4160, 4169);
   (4240, 4249); (4969, 4977); (6112, 6121); (6160, 6169); (6470, 6479);
   (6608, 6618); (6784, 6793); (6800, 6809); (6992, 7001); (7088, 7097);
   (7232, 7241); (7248, 7257); (8304, 8304); (8308, 8313); (8320, 8329);
   (9312, 9320); (9332, 9340); (9352, 9360); (9450, 9450); (9461, 9469);
   (9471, 9471); (10102, 10110); (10112, 10120); (10122, 10130);
   (42528, 42537); (43216, 43225); (43264, 43273); (43472, 43481);
   (43504, 43513); (43600, 43609); (44016, 44025); (65296, 65305);
   (66720, 66729); (68160, 68163); (68912, 68921); (69216, 69224);
   (69714, 69722); (69734, 69743); (69872, 69881); (69942, 69951);
   (70096, 70105); (70384, 70393); (70736, 70745); (70864, 70873);
   (71248, 71257); (71360, 71369); (71472, 71481); (71904, 71913);
   (72016, 72025); (72784, 72793); (73040, 73049); (73120, 73129);
   (92768, 92777); (92864, 92873); (93008, 93017); (120782, 120831);
   (123200, 123209); (123632, 123641); (125264, 125273); (127232, 127242);
   (130032, 130041)].

(** [c.isdigit()] for a one-character string. *)
Definition isdigit_char (c : char) : bool :=
  existsb (in_range c) digit_ranges.

(** The ASCII digits ['0'] .. ['9']. *)
Definition is_ascii_digit (c : char) : bool := (48 <=? c) && (c <=? 57).

(** [s.isdigit()]: non-empty and every character is a digit. *)
Definition str_isdigit (s : str) : bool :=
  negb (bool_decide (s = [])) && forallb isdigit_char s.

(** [c.isdigit()] on an arbitrary value: only a [str] has the method. *)
Definition py_isdigit (c : pyval) : result bool :=
  match c with
  | PStr s => Ok (str_isdigit s)
  | _ => Raise AttributeError
  end.

(** [s.startswith(p)] *)
Fixpoint startswith (s p : str) : bool :=
  match p, s with
  | [], _ => true
  | _ :: _, [] => false
  | b :: p', a :: s' => (a =? b) && startswith s' p'
  end.

(** [sep.join(items)]: every item must be a [str]. *)
Fixpoint str_join (sep : str) (items : list pyval) : result str :=
  match items with
  | [] => Ok []
  | PStr s :: rest =>
      match rest with
      | [] => Ok s
      | _ :: _ => bind (str_join sep rest) (fun t => Ok (s ++ sep ++ t))
      end
  | _ :: _ => Raise TypeError
  end.

(** [s.split(sep)] for a one-character separator: never empty. *)
Fixpoint str_split (sep : char) (s : str) : list str :=
  match s with
  | [] => [[]]
  | c :: s' =>
      if c =? sep then [] :: str_split sep s'
      else match str_split sep s' with
           | [] => [[c]]
           | seg :: segs => (c :: seg) :: segs
           end
  end.

(** [v.split(sep)] on an arbitrary value: only a [str] has the method. *)
Definition py_split (v : pyval) (sep : char) : result (list str) :=
  match v with
  | PStr s => Ok (str_split sep s)
  | _ => Raise AttributeError
  end.

(** [l[0]] *)
Definition index0 {A} (l : list A) : result A :=
  match l with
  | [] => Raise IndexError
  | x :: _ => Ok x
  end.

(** ** int(s) for a [str] argument *)

(** Code points with [chr(c).isdecimal()] (Unicode 14.0.0).  Every run
    starts at a digit zero, so the value of [c] in a run starting at
    [lo] is [(c - lo) mod 10]. *)
Definition decimal_ranges : list (N * N) :=
  [(48, 57); (1632, 1641); (1776, 1785); (1984, 1993); (2406, 2415);
   (2534, 2543); (2662, 2671); (2790, 2799); (2918, 2927); (3046, 3055);
   (3174, 3183); (3302, 3311); (3430, 3439); (3558, 3567); (3664, 3673);
   (3792, 3801); (3872, 3881); (4160, 4169); (4240, 4249); (6112, 6121);
   (6160, 6169); (6470, 6479); (6608, 6617); (6784, 6793); (6800, 6809);
   (6992, 7001); (7088, 7097); (7232, 7241); (7248, 7257); (42528, 42537);
   (43216, 43225); (43264, 43273); (43472, 43481); (43504, 43513);
   (43600, 43609); (44016, 44025); (65296, 65305); (66720, 66729);
   (68912, 68921); (69734, 69743); (69872, 69881); (69942, 69951);
   (70096, 70105); (70384, 70393); (70736, 70745); (70864, 70873);
   (71248, 71257); (71360, 71369); (71472, 71481); (71904, 71913);
   (72016, 72025); (72784, 72793); (73040, 73049); (73120, 73129);
   (92768, 92777); (92864, 92873); (93008, 93017); (120782, 120831);
   (123200, 123209); (123632, 123641); (125264, 125273); (130032, 130041)].

(** Whitespace code points above ASCII. *)
Definition space_ranges : list (N * N) :=
  [(133, 133); (160, 160); (5760, 5760); (8192, 8202); (8232, 8233);
   (8239, 8239); (8287, 8287); (12288, 12288)].

(** Decimal value of a code point, if it is a decimal digit. *)
Definition decimal_value (c : char) : option N :=
  match List.find (in_range c) decimal_ranges with
  | Some (lo, _) => Some ((c - lo) mod 10)
  | None => None
  end.

(** CPython first maps the text to ASCII: code points below 127 are
    kept, other whitespace becomes a blank, other decimal digits become
    ['0'] .. ['9'], and anything else becomes ['?'] and ends the text. *)
Fixpoint to_ascii_decimal (s : str) : str :=
  match s with
  | [] => []
  | c :: s' =>
      if c <? 127 then c :: to_ascii_decimal s'
      else if existsb (in_range c) space_ranges then 32 :: to_ascii_decimal s'
      else match decimal_value c with
           | Some d => (48 + d) :: to_ascii_decimal s'
           | None => [63]
           end
  end.

Definition is_ascii_space (c : char) : bool :=
  ((9 <=? c) && (c <=? 13)) || (c =? 32).

Fixpoint skip_spaces (s : str) : str :=
  match s with
  | c :: s' => if is_ascii_space c then skip_spaces s' else s
  | [] => []
  end.

(** Scan digits and single underscores between them; returns the value,
    the number of digits and the unread rest, or [None] for a doubled or
    trailing underscore. *)
Fixpoint scan_digits (after_underscore : bool) (acc : Z) (ndigits : nat)
    (s : str) : option (Z * nat * str) :=
  match s with
  | c :: s' =>
      if is_ascii_digit c
      then scan_digits false (10 * acc + Z.of_N (c - 48))%Z (S ndigits) s'
      else if c =? 95
      then if after_underscore then None
           else scan_digits true acc ndigits s'
      else if after_underscore then None else Some (acc, ndigits, s)
  | [] => if after_underscore then None else Some (acc, ndigits, [])
  end.

(** [sys.int_info.default_max_str_digits] *)
Definition int_max_str_digits : nat := 4300.

(** [int(s)]: [None] stands for ValueError. *)
Definition parse_int (s : str) : option Z :=
  let t := skip_spaces (to_ascii_decimal s) in
  let '(sign, t) :=
    match t with
    | 43 :: r => (1%Z, r)
    | 45 :: r => ((-1)%Z, r)
    | _ => (1%Z, t)
    end in
  match t with
  | 95 :: _ => None
  | _ =>
      match scan_digits false 0%Z 0%nat t with
      | Some (n, ndigits, rest) =>
          if bool_decide (ndigits = 0%nat) then None
          else if bool_decide (int_max_str_digits < ndigits)%nat then None
          else match skip_spaces rest with
               | [] => Some (sign * n)%Z
               | _ :: _ => None
               end
      | None => None
      end
  end.

Definition py_int (s : str) : result Z :=
  match parse_int s with
  | Some n => Ok n
  | None => Raise ValueError
  end.

(** ** s.encode('utf-8') *)

Definition utf8_char (c : char) : option (list N) :=
  if c <? 0x80 then Some [c]
  else if c <? 0x800 then
    Some [N.lor 0xC0 (N.shiftr c 6); N.lor 0x80 (N.land c 0x3F)]
  else if (0xD800 <=? c) && (c <=? 0xDFFF) then None
  else if c <? 0x10000 then
    Some [N.lor 0xE0 (N.shiftr c 12);
          N.lor 0x80 (N.land (N.shiftr c 6) 0x3F);
          N.lor 0x80 (N.land c 0x3F)]
  else if c <? 0x110000 then
    Some [N.lor 0xF0 (N.shiftr c 18);
          N.lor 0x80 (N.land (N.shiftr c 12) 0x3F);
          N.lor 0x80 (N.land (N.shiftr c 6) 0x3F);
          N.lor 0x80 (N.land c 0x3F)]
  else None.

(** The bytes of [s], or [None] when [s] holds a surrogate. *)
Fixpoint utf8 (s : str) : option (list N) :=
  match s with
  | [] => Some []
  | c :: s' =>
      match utf8_char c, utf8 s' with
      | Some bs, Some rest => Some (bs ++ rest)
      | _, _ => None
      end
  end.

(** [v.encode('utf-8')] on an arbitrary value: only a [str] has the
    method. *)
Definition py_encode_utf8 (v : pyval) : result (list N) :=
  match v with
  | PStr s =>
      match utf8 s with
      | Some bs => Ok bs
      | None => Raise UnicodeEncodeError
      end
  | _ => Raise AttributeError
  end.

End Py.

(* ===================================================================== *)
(** * hashlib.sha256 *)
(* ===================================================================== *)

Module Sha256.

(** 32-bit words are numbers below [2^32]. *)
Definition w32 (x : N) : N := x mod 2 ^ 32.
Definition add32 (x y : N) : N := w32 (x + y).
Definition rotr (n x : N) : N :=
  N.lor (N.shiftr x n) (w32 (N.shiftl x (32 - n))).
Definition not32 (x : N) : N := N.lxor x 0xFFFFFFFF.

Definition Ch (x y z : N) : N := N.lxor (N.land x y) (N.land (not32 x) z).
Definition Maj (x y z : N) : N :=
  N.lxor (N.lxor (N.land x y) (N.land x z)) (N.land y z).
Definition Sigma0 (x : N) : N :=
  N.lxor (N.lxor (rotr 2 x) (rotr 13 x)) (rotr 22 x).
Definition Sigma1 (x : N) : N :=
  N.lxor (N.lxor (rotr 6 x) (rotr 11 x)) (rotr 25 x).
Definition sigma0 (x : N) : N :=
  N.lxor (N.lxor (rotr 7 x) (rotr 18 x)) (N.shiftr x 3).
Definition sigma1 (x : N) : N :=
  N.lxor (N.lxor (rotr 17 x) (rotr 19 x)) (N.shiftr x 10).

(** The first 64 primes. *)
Definition primes : list N :=
  [2; 3; 5; 7; 11; 13; 17; 19; 23; 29; 31; 37; 41; 43; 47; 53; 59; 61; 67;
   71; 73; 79; 83; 89; 97; 101; 103; 107; 109; 113; 127; 131; 137; 139; 149;
   151; 157; 163; 167; 173; 179; 181; 191; 193; 197; 199; 211; 223; 227;
   229; 233; 239; 241; 251; 257; 263; 269; 271; 277; 281; 283; 293; 307;
   311].

(** Integer cube root by bisection: the largest [r] below [2^bits] above
    the given [r] bits with [r^3 <= n]. *)
Fixpoint cbrt_bits (bits : nat) (n r : N) : N :=
  match bits with
  | O => r
  | S b =>
      let r' := r + 2 ^ N.of_nat b in
      if r' * r' * r' <=? n then cbrt_bits b n r' else cbrt_bits b n r
  end.

Definition cbrt (n : N) : N := cbrt_bits 40 n 0.

(** Round constants: the first 32 bits of the fractional parts of the
    cube roots of the first 64 primes. *)
Definition K : list N :=
  Eval vm_compute in List.map (fun p => w32 (cbrt (p * 2 ^ 96))) primes.

(** Initial hash value: the first 32 bits of the fractional parts of the
    square roots of the first 8 primes. *)
Definition H0 : list N :=
  Eval vm_compute in
    List.map (fun p => w32 (N.sqrt (p * 2 ^ 64))) (firstn 8 primes).

(** The [n] low bytes of [x], most significant first. *)
Fixpoint be_bytes (n : nat) (x : N) : list N :=
  match n with
  | O => []
  | S n' => N.land (N.shiftr x (8 * N.of_nat n')) 0xFF :: be_bytes n' x
  end.

(** Message padding: a one bit, zeros, and the bit length in 64 bits, up
    to a multiple of 64 bytes. *)
Definition pad (msg : list N) : list N :=
  let len := length msg in
  let zeros := ((64 - (len + 9) mod 64) mod 64)%nat in
  msg ++ [0x80] ++ repeat 0 zeros ++ be_bytes 8 (8 * N.of_nat len).

(** Big-endian 32-bit words of a byte sequence. *)
Fixpoint words (bs : list N) : list N :=
  match bs with
  | a :: b :: c :: d :: rest =>
      N.lor (N.lor (N.lor (N.shiftl a 24) (N.shiftl b 16)) (N.shiftl c 8)) d
      :: words rest
  | _ => []
  end.

(** The first [n] blocks of sixteen words. *)
Fixpoint blocks (n : nat) (ws : list N) : list (list N) :=
  match n with
  | O => []
  | S n' => firstn 16 ws :: blocks n' (skipn 16 ws)
  end.

(** One round on the working variables [a..h], kept as a list. *)
Definition round (st : list N) (k w : N) : list N :=
  match st with
  | [a; b; c; d; e; f; g; h] =>
      let t1 := add32 (add32 (add32 (add32 h (Sigma1 e)) (Ch e f g)) k) w in
      let t2 := add32 (Sigma0 a) (Maj a b c) in
      [add32 t1 t2; a; b; c; add32 d t1; e; f; g]
  | _ => st
  end.

(** The 64 rounds.  [win] holds the sixteen schedule words W[t..t+15]
    of the current round [t]. *)
Fixpoint rounds (ks : list N) (win : list N) (st : list N) : list N :=
  match ks with
  | [] => st
  | k :: ks' =>
      let w := nth 0 win 0 in
      let next :=
        add32 (add32 (add32 (sigma1 (nth 14 win 0)) (nth 9 win 0))
                     (sigma0 (nth 1 win 0))) w in
      rounds ks' (tl win ++ [next]) (round st k w)
  end.

Fixpoint add_words (xs ys : list N) : list N :=
  match xs, ys with
  | x :: xs', y :: ys' => add32 x y :: add_words xs' ys'
  | _, _ => []
  end.

Definition compress (h : list N) (block : list N) : list N :=
  add_words h (rounds K block h).

(** [sha256(msg).digest()] *)
Definition digest (msg : list N) : list N :=
  let ws := words (pad msg) in
  let h := fold_left compress (blocks (length ws / 16) ws) H0 in
  concat (List.map (be_bytes 4) h).

Definition hex_digit (n : N) : N := if n <? 10 then 48 + n else 87 + n.

(** [sha256(msg).hexdigest()]: lower-case hexadecimal text. *)
Definition hexdigest (msg : list N) : list N :=
  concat (List.map (fun b => [hex_digit (N.shiftr b 4);
                               hex_digit (N.land b 0xF)]) (digest msg)).

End Sha256.

(* ===================================================================== *)
(** * The pandas operations used by the aggregator *)
(* ===================================================================== *)

Module Pandas.
Import Py.

(** A frame is modelled by the list of row dicts that [pd.DataFrame] is
    given.  Cells are kept as Python objects. *)
Abbreviation DataFrame := (list (list (list N * pyval))) (only parsing).

(** The column labels: the keys of the rows, in order of first
    appearance.  A frame built from no rows has no columns. *)
Definition columns (df : DataFrame) : list str :=
  fold_left
    (fun cols row =>
       fold_left (fun cols kv =>
                    if bool_decide (fst kv ∈ cols) then cols
                    else cols ++ [fst kv]) row cols)
    df [].

(** [df[c]]: KeyError for an unknown label; a row that lacks the key
    holds NaN. *)
Definition column (df : DataFrame) (c : str) : result (list pyval) :=
  if bool_decide (c ∈ columns df)
  then Ok (List.map (fun row => dict_get row c PNaN) df)
  else Raise KeyError.

(** Keys of [value_counts().to_dict()].  Python compares [True] and
    [1] (and [34.0] and [34]) equal as dict keys, so numbers are keyed
    by their value. *)
Inductive hkey : Set :=
| KNum (n : Z)
| KStr (s : list N).

#[global] Instance hkey_eq_dec : EqDecision hkey.
Proof. solve_decision. Defined.

#[global] Instance hkey_countable : Countable hkey.
Proof.
  refine (inj_countable'
            (fun k => match k with KNum n => inl n | KStr s => inr s end)
            (fun x => match x with inl n => KNum n | inr s => KStr s end) _).
  intros []; reflexivity.
Defined.

(** The key of a cell: [None] for a missing value (dropped by
    [value_counts]), TypeError for an unhashable one. *)
Definition hash_key (v : pyval) : result (option hkey) :=
  match v with
  | PNone | PNaN => Ok None
  | PBool b => Ok (Some (KNum (if b then 1 else 0)%Z))
  | PInt n => Ok (Some (KNum n))
  | PStr s => Ok (Some (KStr s))
  | PList _ | PDict _ => Raise TypeError
  end.

(** [col.value_counts().to_dict()] as a finite map; the order of the
    entries is not modelled. *)
Fixpoint value_counts (col : list pyval) : result (gmap hkey nat) :=
  match col with
  | [] => Ok ∅
  | v :: col' =>
      k <- hash_key v ;;
      m <- value_counts col' ;;
      Ok match k with
         | Some k => <[k := S (default O (m !! k))]> m
         | None => m
         end
  end.

(** [col.explode()]: a list cell becomes one row per item, a dict cell
    one row per key, an empty list-like one NaN row; any other cell is
    kept. *)
Definition explode_cell (v : pyval) : list pyval :=
  match v with
  | PList [] => [PNaN]
  | PList l => l
  | PDict [] => [PNaN]
  | PDict d => List.map (fun kv => PStr (fst kv)) d
  | _ => [v]
  end.

Definition explode (col : list pyval) : list pyval :=
  concat (List.map explode_cell col).

(** [col.apply(f)] *)
Definition apply (f : pyval -> result pyval) (col : list pyval)
  : result (list pyval) :=
  mapM f col.

Definition is_bool (v : pyval) : bool :=
  match v with PBool _ => true | _ => false end.

Definition is_int64 (v : pyval) : bool :=
  match v with
  | PInt n => ((- 2 ^ 63 <=? n) && (n <? 2 ^ 63))%Z
  | _ => false
  end.

Definition isna (v : pyval) : bool :=
  match v with PNone | PNaN => true | _ => false end.

(** Two's-complement wrap-around of a 64-bit sum. *)
Definition wrap64 (n : Z) : Z := ((n + 2 ^ 63) mod 2 ^ 64 - 2 ^ 63)%Z.

Definition int_of (v : pyval) : Z :=
  match v with
  | PBool b => if b then 1 else 0
  | PInt n => n
  | _ => 0
  end.

(** Python [a + b] on the values of the model. *)
Definition py_add (a b : pyval) : result pyval :=
  match a, b with
  | (PBool _ | PInt _), (PBool _ | PInt _) => Ok (PInt (int_of a + int_of b))
  | PStr s, PStr t => Ok (PStr (s ++ t))
  | PList l, PList m => Ok (PList (l ++ m))
  | _, _ => Raise TypeError
  end.

Fixpoint sum_objects (acc : pyval) (col : list pyval) : result pyval :=
  match col with
  | [] => Ok acc
  | v :: col' => acc' <- py_add acc v ;; sum_objects acc' col'
  end.

(** [col.sum()].  A column of bools counts its [True] cells; a column of
    64-bit integers is summed with wrap-around; any other column is an
    object column: missing values count as 0 and the cells are added
    with Python [+] from left to right (integers outside 64 bits stay
    Python integers). *)
Definition sum (col : list pyval) : result pyval :=
  if forallb is_bool col
  then Ok (PInt (fold_right Z.add 0%Z (List.map int_of col)))
  else if forallb is_int64 col
  then Ok (PInt (wrap64 (fold_right Z.add 0%Z (List.map int_of col))))
  else match List.map (fun v => if isna v then PInt 0 else v) col with
       | [] => Ok (PInt 0)
       | v :: col' => sum_objects v col'
       end.

End Pandas.

(* ===================================================================== *)
(** * Data.py *)
(* ===================================================================== *)

Module Data.
Import Py Pandas.

(** [is_valid_indian_phone_number(phone_number)] *)
Definition is_valid_indian_phone_number (phone_number : pyval) : result bool :=
  match phone_number with
  | PNone => Ok false
  | _ =>
      (* ''.join(c for c in phone_number if c.isdigit()) *)
      cs <- py_iter phone_number ;;
      kept <- mapM (fun c => b <- py_isdigit c ;; Ok (c, b)) cs ;;
      phone_number <- str_join []
                        (List.map fst (List.filter snd kept)) ;;
      Ok ((length phone_number =? 10)%nat
          && (startswith phone_number (u "91")
              || startswith phone_number (u "+91")))
  end.

(** [calculate_age(birth_date)]; [today_year] is [date.today().year]. *)
Definition calculate_age (today_year : Z) (birth_date : pyval) : result pyval :=
  match birth_date with
  | PNone => Ok PNone
  | _ =>
      try_except
        (parts <- py_split birth_date 45 ;;
         first <- index0 parts ;;
         birth_year <- py_int first ;;
         Ok (PInt (today_year - birth_year)))
        ValueError
        (Ok PNone)
  end.

(** The body of the [for item in data] loop of [process_json_data]: one
    raw appointment to one processed item. *)
Definition process_item (today_year : Z) (item : pyval) : result dict :=
  let processed_item : dict := [] in
  appointmentId <- py_get item (u "appointmentId") PNone ;;
  let processed_item := dict_set processed_item (u "appointmentId") appointmentId in
  phoneNumber <- py_get item (u "phoneNumber") PNone ;;
  let processed_item := dict_set processed_item (u "phoneNumber") phoneNumber in
  (* Extract patient details *)
  patient_details <- py_get item (u "patientDetails") (PDict []) ;;
  firstName <- py_get patient_details (u "firstName") PNone ;;
  let processed_item := dict_set processed_item (u "firstName") firstName in
  lastName <- py_get patient_details (u "lastName") PNone ;;
  let processed_item := dict_set processed_item (u "lastName") lastName in
  gender <- py_get patient_details (u "gender") PNone ;;
  let processed_item := dict_set processed_item (u "gender") gender in
  birthDate <- py_get patient_details (u "birthDate") PNone ;;
  let processed_item := dict_set processed_item (u "birthDate") birthDate in
  (* Transform gender *)
  g1 <- dict_getitem processed_item (u "gender") ;;
  gender <- (if eq_str g1 (u "M") then Ok (PStr (u "male"))
             else g2 <- dict_getitem processed_item (u "gender") ;;
                  Ok (if eq_str g2 (u "F") then PStr (u "female")
                      else PStr (u "others"))) ;;
  let processed_item := dict_set processed_item (u "gender") gender in
  (* Rename birthDate to DOB and calculate age *)
  popped <- dict_pop processed_item (u "birthDate") ;;
  let processed_item := dict_set (snd popped) (u "DOB") (fst popped) in
  dob <- dict_getitem processed_item (u "DOB") ;;
  age <- calculate_age today_year dob ;;
  let processed_item := dict_set processed_item (u "Age") age in
  (* Extract and process medicines *)
  consultation_data <- py_get item (u "consultationData") (PDict []) ;;
  medicines <- py_get consultation_data (u "medicines") (PList []) ;;
  let medicines := if negb (is_list medicines) then PList [] else medicines in
  let processed_item := dict_set processed_item (u "medicines") medicines in
  (* Derived column: fullName *)
  fullName <- str_join (u " ")
                [dict_get processed_item (u "firstName") (PStr []);
                 dict_get processed_item (u "lastName") (PStr [])] ;;
  let processed_item := dict_set processed_item (u "fullName") (PStr fullName) in
  (* isValidMobile *)
  phone <- dict_getitem processed_item (u "phoneNumber") ;;
  valid <- is_valid_indian_phone_number phone ;;
  let processed_item := dict_set processed_item (u "isValidMobile") (PBool valid) in
  (* phoneNumberHash *)
  valid <- dict_getitem processed_item (u "isValidMobile") ;;
  if truthy valid then
    phone <- dict_getitem processed_item (u "phoneNumber") ;;
    bytes <- py_encode_utf8 phone ;;
    let phone_hash := Sha256.hexdigest bytes in
    Ok (dict_set processed_item (u "phoneNumberHash") (PStr phone_hash))
  else
    Ok (dict_set processed_item (u "phoneNumberHash") PNone).

(** [process_json_data], from the decoded JSON document [data] on: the
    frame of the processed items, in input order. *)
Definition process_json_data (today_year : Z) (data : pyval)
  : result DataFrame :=
  items <- py_iter data ;;
  processed_data <- mapM (process_item today_year) items ;;
  Ok processed_data.

(** [count_medicines(meds)], local to [generate_aggregated_data]:
    [len(meds)] if [meds] is a list, 0 otherwise. *)
Definition count_medicines (meds : pyval) : pyval :=
  match meds with
  | PList l => PInt (Z.of_nat (length l))
  | _ => PInt 0
  end.

(** The dict that [generate_aggregated_data] returns. *)
Record AggregateSummary : Type := {
  Age : gmap hkey nat;
  gender : gmap hkey nat;
  validPhoneNumbers : pyval;
  appointments : nat;
  medicines : pyval;
  activeMedicines : pyval
}.

(** [dataframe['medicines'].explode().apply(count_medicines).sum()] *)
Definition medicines_total (dataframe : DataFrame) : result pyval :=
  col <- column dataframe (u "medicines") ;;
  counts <- apply (fun meds => Ok (count_medicines meds)) (explode col) ;;
  sum counts.

(** [dataframe['medicines'].explode().apply(
       lambda medicine: medicine.get('IsActive', False)).sum()] *)
Definition active_medicines_total (dataframe : DataFrame) : result pyval :=
  col <- column dataframe (u "medicines") ;;
  flags <- apply (fun medicine => py_get medicine (u "IsActive") (PBool false))
                 (explode col) ;;
  sum flags.

(** [generate_aggregated_data(dataframe)]: the entries of the dict
    display are evaluated in order. *)
Definition generate_aggregated_data (dataframe : DataFrame)
  : result AggregateSummary :=
  age_col <- column dataframe (u "Age") ;;
  age <- value_counts age_col ;;
  gender_col <- column dataframe (u "gender") ;;
  gender <- value_counts gender_col ;;
  valid_col <- column dataframe (u "isValidMobile") ;;
  valid <- sum valid_col ;;
  let appointments := length dataframe in
  medicines <- medicines_total dataframe ;;
  active <- active_medicines_total dataframe ;;
  Ok {| Age := age; gender := gender; validPhoneNumbers := valid;
        appointments := appointments; medicines := medicines;
        activeMedicines := active |}.

End Data.

(* ===================================================================== *)
(** * The specification's reading of the phone rule *)
(* ===================================================================== *)

Module Spec.
Import Py Data.

(** "Strip every character that is not a digit; true iff the result has
    length exactly 10 and starts with 91", for a given notion of
    digit. *)
Definition digits_rule (digit : N -> bool) (s : list N) : bool :=
  let d := List.filter digit s in
  (length d =? 10)%nat && startswith d (u "91").

(** The rule as the specification words it: null gives false, and the
    characters kept are the ASCII digits. *)
Definition isValidIndianPhoneNumber (raw : option (list N)) : bool :=
  match raw with
  | None => false
  | Some s => digits_rule is_ascii_digit s
  end.

(** [is_valid_indian_phone_number] with the ['+91'] disjunct deleted. *)
Definition is_valid_indian_phone_number_simplified (phone_number : pyval)
  : result bool :=
  match phone_number with
  | PNone => Ok false
  | _ =>
      cs <- py_iter phone_number ;;
      kept <- mapM (fun c => b <- py_isdigit c ;; Ok (c, b)) cs ;;
      phone_number <- str_join []
                        (List.map fst (List.filter snd kept)) ;;
      Ok ((length phone_number =? 10)%nat && startswith phone_number (u "91"))
  end.

(** The text before the first ['-'] of a birth date. *)
Definition first_segment (s : list N) : list N :=
  hd [] (str_split 45 s).

End Spec.

(* ===================================================================== *)
(** * Processed items in explicit form, and the inputs of the examples *)
(* ===================================================================== *)

Module Canonical.
Import Py Data.

(** The processed item with its twelve assignments carried out. *)
Definition canonical (appointmentId phoneNumber firstName lastName gender
    dob age medicines fullName isValidMobile phoneNumberHash : pyval)
  : dict :=
  [(u "appointmentId", appointmentId); (u "phoneNumber", phoneNumber);
   (u "firstName", firstName); (u "lastName", lastName);
   (u "gender", gender); (u "DOB", dob); (u "Age", age);
   (u "medicines", medicines); (u "fullName", fullName);
   (u "isValidMobile", isValidMobile);
   (u "phoneNumberHash", phoneNumberHash)].

Definition map_gender (g : pyval) : pyval :=
  if eq_str g (u "M") then PStr (u "male")
  else if eq_str g (u "F") then PStr (u "female")
  else PStr (u "others").

Definition coerce_medicines (m : pyval) : pyval :=
  if negb (is_list m) then PList [] else m.

End Canonical.

Module Examples.
Import Py Data Canonical.

(** The input of the counterexample to the ASCII reading of the digit
    filter: ['9'], ['1'] and eight SUPERSCRIPT TWO (U+00B2). *)
Definition superscript_phone : list N := u "91" ++ repeat 178 8%nat.

Definition active_medicine : pyval := PDict [(u "IsActive", PBool true)].

(** A processed item as the normaliser emits it for a record with both
    names, with the given [medicines]. *)
Definition item_with (medicines : list pyval) : dict :=
  canonical (PStr (u "A1")) (PStr (u "9199999999"))
    (PStr (u "Jane")) (PStr (u "Doe")) (PStr (u "female"))
    (PStr (u "1990-05-01")) (PInt 36) (PList medicines)
    (PStr (u "Jane Doe")) (PBool true)
    (PStr (u "781dbb95a8db7e478d3ca8b6f3a0d48dbf94e8e4a7a2dc7c6e8a726421e812b4")).

(** The raw record behind [item_with]. *)
Definition raw_with (names : dict) (medicines : pyval) : pyval :=
  PDict [(u "appointmentId", PStr (u "A1"));
         (u "phoneNumber", PStr (u "9199999999"));
         (u "patientDetails",
          PDict (names ++ [(u "gender", PStr (u "F"));
                           (u "birthDate", PStr (u "1990-05-01"))]));
         (u "consultationData", PDict [(u "medicines", medicines)])].

Definition jane_doe : dict :=
  [(u "firstName", PStr (u "Jane")); (u "lastName", PStr (u "Doe"))].

Definition jane_only : dict :=
  [(u "firstName", PStr (u "Jane"))].

End Examples.

(* ===================================================================== *)
(** * Notions used to state the further properties *)
(* ===================================================================== *)

Module Derived.
Import Py Pandas Data Canonical.

(** The keys of a processed item, in insertion order: the column labels
    of the frame. *)
Definition canonical_keys : list (list N) :=
  [u "appointmentId"; u "phoneNumber"; u "firstName"; u "lastName";
   u "gender"; u "DOB"; u "Age"; u "medicines"; u "fullName";
   u "isValidMobile"; u "phoneNumberHash"].

(** The three values of the [gender] column. *)
Definition canonical_genders : list pyval :=
  [PStr (u "male"); PStr (u "female"); PStr (u "others")].

Definition is_dict (v : pyval) : bool :=
  match v with PDict _ => true | _ => false end.

Definition is_str (v : pyval) : bool :=
  match v with PStr _ => true | _ => false end.

Definition is_none (v : pyval) : bool :=
  match v with PNone => true | _ => false end.

(** ['0'] .. ['9'] and ['a'] .. ['f']. *)
Definition is_lower_hex (c : N) : bool :=
  ((48 <=? c) && (c <=? 57)) || ((97 <=? c) && (c <=? 102)).

(** The bool [True]. *)
Definition is_true (v : pyval) : bool :=
  match v with PBool true => true | _ => false end.

(** A row whose medicines are the empty list. *)
Definition has_no_medicines (row : dict) : bool :=
  match dict_get row (u "medicines") PNaN with
  | PList [] => true
  | _ => false
  end.

(** The [IsActive] flag that the aggregator reads off a mapping. *)
Definition active_flag (medicine : pyval) : pyval :=
  match medicine with
  | PDict d => dict_get d (u "IsActive") (PBool false)
  | _ => PBool false
  end.

(** The entries of all [medicines] cells of a frame, in order. *)
Definition all_medicines (df : DataFrame) : list pyval :=
  concat (List.map (fun row =>
                      match dict_get row (u "medicines") PNaN with
                      | PList l => l
                      | _ => []
                      end) df).

(** The shape of the rows that the record loop emits. *)
Definition well_formed_row (r : dict) : Prop :=
  exists appointmentId phoneNumber firstName lastName gender dob age
         medicines fullName valid hash,
    r = canonical appointmentId phoneNumber firstName lastName gender dob
          age (PList medicines) fullName (PBool valid) hash
    /\ In gender canonical_genders
    /\ (age = PNone \/ exists a, age = PInt a).

(** The number of rows whose cell under [key] satisfies [p]. *)
Definition count_where (p : pyval -> bool) (key : list N) (df : DataFrame)
  : nat :=
  length (List.filter (fun row => p (dict_get row key PNaN)) df).


(** A count as a tally entry: no entry for zero. *)
Definition nonzero (n : nat) : option nat :=
  match n with O => None | S _ => Some n end.

(** The cell [v] is tallied under the key [k]. *)
Definition has_key (k : hkey) (v : pyval) : bool :=
  match hash_key v with
  | Ok (Some k') => bool_decide (k' = k)
  | _ => false
  end.

End Derived.

Module MoreExamples.
Import Py Pandas Data Canonical Examples Derived.

(** The patientDetails of [raw_with jane_doe]. *)
Definition jane_details : dict :=
  jane_doe ++ [(u "gender", PStr (u "F"));
               (u "birthDate", PStr (u "1990-05-01"))].

(** The object of [raw_with jane_doe medicines]. *)
Definition jane_record (medicines : pyval) : dict :=
  [(u "appointmentId", PStr (u "A1"));
   (u "phoneNumber", PStr (u "9199999999"));
   (u "patientDetails", PDict jane_details);
   (u "consultationData", PDict [(u "medicines", medicines)])].

(** A record whose birth date is the JSON number 1990. *)
Definition numeric_birth_details : dict :=
  jane_doe ++ [(u "birthDate", PInt 1990)].

Definition numeric_birth_record : dict :=
  [(u "patientDetails", PDict numeric_birth_details)].

(** A record whose consultationData is null. *)
Definition null_consultation_record : dict :=
  [(u "patientDetails", PDict jane_details);
   (u "consultationData", PNone)].

(** A run of one record with one active medicine, and its frame. *)
Definition one_active_run : pyval :=
  PList [raw_with jane_doe (PList [active_medicine])].

Definition one_active_frame : DataFrame := [item_with [active_medicine]].

(** A run of one record without medicines, and its frame. *)
Definition no_medicines_run : pyval := PList [raw_with jane_doe (PList [])].

Definition no_medicines_frame : DataFrame := [item_with []].

End MoreExamples.

Import Py Pandas Data Spec Canonical Examples Derived MoreExamples.

(* ===================================================================== *)
(** * The modelled builtins on known values *)
(* ===================================================================== *)

(** FIPS 180-4 test vectors and the digest used below. *)
Example sha256_empty :
  Sha256.hexdigest []
  = u "e3b0c44298fc1c149afbf4c8996fb92427ae41e4649b934ca495991b7852b855".
Proof. vm_compute. reflexivity. Qed.

Example sha256_abc :
  Sha256.hexdigest (u "abc")
  = u "ba7816bf8f01cfea414140de5dae2223b00361a396177a9cb410ff61f20015ad".
Proof. vm_compute. reflexivity. Qed.

Example sha256_two_blocks :
  Sha256.hexdigest (repeat 97 56%nat)
  = u "b35439a4ac6f0948b6d6f9e3c6af0f5f590ce20f1bde7090ef7970686ec6738a".
Proof. vm_compute. reflexivity. Qed.

Example sha256_phone :
  Sha256.hexdigest (u "9199999999")
  = u "781dbb95a8db7e478d3ca8b6f3a0d48dbf94e8e4a7a2dc7c6e8a726421e812b4".
Proof. vm_compute. reflexivity. Qed.

(** [int] accepts blanks around the number, a sign, single underscores
    between digits and any Unicode decimal digit, and nothing else. *)
Example int_plain : parse_int (u "1990") = Some 1990%Z.
Proof. reflexivity. Qed.

Example int_blanks : parse_int (u " 12 ") = Some 12%Z.
Proof. reflexivity. Qed.

Example int_negative : parse_int (u "-5") = Some (-5)%Z.
Proof. reflexivity. Qed.

Example int_underscore : parse_int (u "1_0") = Some 10%Z.
Proof. reflexivity. Qed.

Example int_arabic_indic : parse_int [1633; 1641; 1641; 1632] = Some 1990%Z.
Proof. reflexivity. Qed.

Example int_rejects :
  List.map parse_int
    [u ""; u "+"; u "- 5"; u "_1"; u "1_"; u "1__0"; u "1 2"; u "1.0";
     u "0x10"; u "not"; [178]; [28; 49]]
  = repeat None 12%nat.
Proof. reflexivity. Qed.

Example int_digit_limit :
  parse_int (repeat 49 4301%nat) = None
  /\ parse_int (repeat 49 4300%nat) <> None.
Proof. split; vm_compute; [reflexivity|discriminate]. Qed.

Example split_date :
  str_split 45 (u "1990-05-01") = [u "1990"; u "05"; u "01"].
Proof. reflexivity. Qed.

Example split_edges : str_split 45 (u "-a-") = [[]; u "a"; []].
Proof. reflexivity. Qed.

Example utf8_widths :
  utf8 [233; 8364; 0x10348]
  = Some [0xC3; 0xA9; 0xE2; 0x82; 0xAC; 0xF0; 0x90; 0x8D; 0x88]
  /\ utf8 [0xD800] = None.
Proof. split; reflexivity. Qed.

(** SUPERSCRIPT TWO is a digit for [str.isdigit] but not for [int]. *)
Example superscript_two :
  isdigit_char 178 = true /\ is_ascii_digit 178 = false
  /\ parse_int [178] = None.
Proof. repeat split. Qed.

(** Dates that do not start with a year give no age. *)
Example calculate_age_malformed :
  List.map (calculate_age 2026)
    [PStr (u "not-a-date"); PStr (u ""); PStr (u "1990/05/01");
     PStr (u "-1990"); PNone]
  = repeat (Ok PNone) 5%nat.
Proof. reflexivity. Qed.

Example calculate_age_year :
  calculate_age 2026 (PStr (u "1990-05-01")) = Ok (PInt 36).
Proof. reflexivity. Qed.

(** A birth date that is neither null nor a string has no [split]. *)
Example calculate_age_number :
  calculate_age 2026 (PInt 1990) = Raise AttributeError.
Proof. reflexivity. Qed.

(* ===================================================================== *)
(** * The phone validator *)
(* ===================================================================== *)

(** Replace the ASCII literals of the goal by their code points. *)
Ltac literals :=
  repeat match goal with
         | |- context [u ?s] =>
             let v := eval vm_compute in (u s) in change (u s) with v
         end.

(** Decide the comparisons of literal keys, and carry out the dictionary
    operations on a dict whose keys are literals. *)
Ltac keys :=
  repeat match goal with
         | |- context [bool_decide (?a = ?b)] =>
             let v := eval vm_compute in (bool_decide (a = b)) in
             match v with
             | true => change (bool_decide (a = b)) with true
             | false => change (bool_decide (a = b)) with false
             end
         end.

Ltac dict_simpl :=
  repeat (progress
            (unfold dict_getitem, dict_pop, dict_get;
             cbn [bind dict_lookup dict_set dict_remove fst snd negb];
             keys)).

Lemma isdigit_char_ascii (c : N) :
  c < 178 -> isdigit_char c = is_ascii_digit c.
Proof.
  intros Hc. unfold isdigit_char, is_ascii_digit.
  change (existsb (in_range c) digit_ranges)
    with (in_range c (48, 57) || existsb (in_range c) (tl digit_ranges))%bool.
  assert (Hrest : existsb (in_range c) (tl digit_ranges) = false).
  { apply not_true_is_false. intros H. apply existsb_exists in H.
    destruct H as [r [Hin Hr]].
    assert (Hall : forallb (fun r => 178 <=? fst r) (tl digit_ranges) = true)
      by (vm_compute; reflexivity).
    rewrite forallb_forall in Hall. apply Hall, N.leb_le in Hin.
    unfold in_range in Hr. apply andb_true_iff in Hr as [Hr _].
    apply N.leb_le in Hr. lia. }
  rewrite Hrest. apply orb_false_r.
Qed.

Lemma str_isdigit_single (c : N) : str_isdigit [c] = isdigit_char c.
Proof. unfold str_isdigit. cbn. apply andb_true_r. Qed.

Lemma isdigit_chars (s : list N) :
  mapM (fun c => b <- py_isdigit c ;; Ok (c, b))
       (List.map (fun c => PStr [c]) s)
  = Ok (List.map (fun c => (PStr [c], isdigit_char c)) s).
Proof.
  induction s as [|c s IH]; [reflexivity|].
  cbn [List.map mapM py_isdigit bind]. rewrite IH. cbn [bind].
  now rewrite str_isdigit_single.
Qed.

Lemma str_join_empty_cons (a : list N) (rest : list pyval) :
  str_join [] (PStr a :: rest) = (t <- str_join [] rest ;; Ok (a ++ t)).
Proof.
  destruct rest as [|v rest]; cbn [str_join bind].
  - now rewrite app_nil_r.
  - reflexivity.
Qed.

Lemma join_kept_chars (s : list N) :
  str_join []
    (List.map fst
       (List.filter snd (List.map (fun c => (PStr [c], isdigit_char c)) s)))
  = Ok (List.filter isdigit_char s).
Proof.
  induction s as [|c s IH]; [reflexivity|].
  cbn [List.map List.filter snd].
  destruct (isdigit_char c); [|exact IH].
  cbn [List.map fst]. rewrite str_join_empty_cons, IH. reflexivity.
Qed.

(** On a string the validator computes the digit rule for [str.isdigit]. *)
Lemma is_valid_str (s : list N) :
  is_valid_indian_phone_number (PStr s) = Ok (digits_rule isdigit_char s).
Proof.
  unfold is_valid_indian_phone_number, digits_rule.
  cbn [py_iter bind]. rewrite isdigit_chars. cbn [bind].
  rewrite join_kept_chars. cbn [bind].
  set (d := List.filter isdigit_char s).
  assert (Hplus : startswith d (u "+91") = false).
  { destruct d as [|a d'] eqn:Hd; [reflexivity|].
    assert (Ha : isdigit_char a = true).
    { assert (Hin : In a (List.filter isdigit_char s))
        by (fold d; rewrite Hd; now left).
      apply filter_In in Hin. tauto. }
    literals. cbn [startswith].
    destruct (N.eqb_spec a 43) as [->|]; [|reflexivity].
    vm_compute in Ha. discriminate. }
  rewrite Hplus, orb_false_r. reflexivity.
Qed.

(** Whatever is iterated, the text that survives the filter consists of
    digits only. *)
Lemma kept_only_digits (cs : list pyval) :
  forall kept t,
    mapM (fun c => b <- py_isdigit c ;; Ok (c, b)) cs = Ok kept ->
    str_join [] (List.map fst (List.filter snd kept)) = Ok t ->
    forallb isdigit_char t = true.
Proof.
  induction cs as [|c cs IH]; intros kept t Hmap Hjoin.
  - injection Hmap as <-. injection Hjoin as <-. reflexivity.
  - cbn [mapM] in Hmap.
    destruct c as [| | | |s0| |]; try discriminate Hmap.
    cbn [py_isdigit bind] in Hmap.
    destruct (mapM _ cs) as [kept'|e] eqn:Hrest; [|discriminate Hmap].
    cbn [bind] in Hmap. injection Hmap as <-.
    cbn [List.filter snd] in Hjoin.
    destruct (str_isdigit s0) eqn:Hs0.
    + cbn [List.map fst] in Hjoin. rewrite str_join_empty_cons in Hjoin.
      destruct (str_join _ _) as [t'|e] eqn:Hj; [|discriminate Hjoin].
      cbn [bind] in Hjoin. injection Hjoin as <-.
      rewrite forallb_app. apply andb_true_iff. split.
      * unfold str_isdigit in Hs0. now apply andb_true_iff in Hs0.
      * now apply (IH kept').
    + now apply (IH kept').
Qed.

Lemma digits_never_start_with_plus (t : list N) :
  forallb isdigit_char t = true -> startswith t (u "+91") = false.
Proof.
  intros Ht. literals. destruct t as [|a t]; [reflexivity|].
  cbn [startswith forallb] in *. apply andb_true_iff in Ht as [Ha _].
  destruct (N.eqb_spec a 43) as [->|]; [|reflexivity].
  vm_compute in Ha. discriminate.
Qed.

(** C6 (as stated) fails: on "91" followed by eight superscript twos the
    code answers true, because [str.isdigit] keeps the superscripts,
    while stripping everything but ASCII digits leaves "91" and gives
    false. *)
Lemma ascii_digit_rule_counterexample :
  is_valid_indian_phone_number (PStr superscript_phone) = Ok true
  /\ isValidIndianPhoneNumber (Some superscript_phone) = false.
Proof. split; vm_compute; reflexivity. Qed.

(** C6 (amended): [is_valid_indian_phone_number] never raises on null or
    a string; it returns false for null, and for a string it returns
    true iff the text left after removing every character that is not a
    digit for [str.isdigit] (the ASCII digits and the other Unicode
    digit characters) has length exactly 10 and starts with "91".  On a
    string without non-ASCII digit characters this is the rule for
    ASCII digits. *)
Theorem is_valid_indian_phone_number_rule (s : list N) :
  is_valid_indian_phone_number PNone = Ok false
  /\ is_valid_indian_phone_number (PStr s) = Ok (digits_rule isdigit_char s)
  /\ (forallb (fun c => implb (isdigit_char c) (is_ascii_digit c)) s = true ->
      is_valid_indian_phone_number (PStr s)
      = Ok (isValidIndianPhoneNumber (Some s))).
Proof.
  split; [reflexivity|]. split; [apply is_valid_str|].
  intros Hascii. rewrite is_valid_str. f_equal.
  unfold isValidIndianPhoneNumber, digits_rule.
  assert (Hfilter : List.filter isdigit_char s = List.filter is_ascii_digit s).
  { induction s as [|c s IH]; [reflexivity|].
    cbn [forallb] in Hascii. apply andb_true_iff in Hascii as [Hc Hs].
    cbn [List.filter]. rewrite (IH Hs).
    assert (Hcc : isdigit_char c = is_ascii_digit c).
    { destruct (isdigit_char c) eqn:Hd.
      - destruct (is_ascii_digit c); [reflexivity|discriminate Hc].
      - destruct (N.ltb_spec c 178) as [Hlt|Hge].
        + now rewrite <- (isdigit_char_ascii c Hlt).
        + unfold is_ascii_digit. symmetry. apply andb_false_iff. right.
          apply N.leb_gt. lia. }
    now rewrite Hcc. }
  now rewrite Hfilter.
Qed.

Lemma is_valid_indian_phone_number_rule_witness :
  forallb (fun c => implb (isdigit_char c) (is_ascii_digit c))
          (u "9199999999") = true
  /\ is_valid_indian_phone_number (PStr (u "9199999999"))
     = Ok (isValidIndianPhoneNumber (Some (u "9199999999"))).
Proof.
  split; [vm_compute; reflexivity|].
  apply (is_valid_indian_phone_number_rule (u "9199999999")).
  vm_compute; reflexivity.
Defined.

(** C9: the ['+91'] disjunct is dead.  For every input, of any type, the
    validator and the validator with that disjunct deleted give the same
    outcome (the same boolean, or the same exception). *)
Theorem plus91_disjunct_is_dead (phone_number : pyval) :
  is_valid_indian_phone_number phone_number
  = is_valid_indian_phone_number_simplified phone_number.
Proof.
  unfold is_valid_indian_phone_number,
    is_valid_indian_phone_number_simplified.
  destruct phone_number; try reflexivity;
    cbn [py_iter bind];
    (match goal with
     | |- context [mapM ?f ?cs] => destruct (mapM f cs) as [kept|e] eqn:Hmap
     end; cbn [bind]; [|reflexivity]);
    (match goal with
     | |- context [str_join ?a ?b] =>
         destruct (str_join a b) as [t|e] eqn:Hjoin
     end; cbn [bind]; [|reflexivity]);
    rewrite (digits_never_start_with_plus t
               (kept_only_digits _ kept t Hmap Hjoin));
    now rewrite orb_false_r.
Qed.

(* ===================================================================== *)
(** * The age calculator *)
(* ===================================================================== *)

Section AgeCalculator.

(** [date.today().year] *)
Variable today_year : Z.

Lemma str_split_cons (sep : N) (s : list N) :
  exists seg segs, str_split sep s = seg :: segs.
Proof.
  induction s as [|c s [seg [segs IH]]]; cbn [str_split].
  - now exists [], [].
  - destruct (c =? sep); [now exists [], (str_split sep s)|].
    rewrite IH. now exists (c :: seg), segs.
Qed.

(** [birth_date.split('-')[0]] never raises on a string. *)
Lemma split_index0 (s : list N) :
  index0 (str_split 45 s) = Ok (first_segment s).
Proof.
  unfold first_segment.
  destruct (str_split_cons 45 s) as [seg [segs ->]]. reflexivity.
Qed.

Lemma calculate_age_str (s : list N) :
  calculate_age today_year (PStr s)
  = Ok match parse_int (first_segment s) with
       | Some birth_year => PInt (today_year - birth_year)
       | None => PNone
       end.
Proof.
  unfold calculate_age. cbn [py_split bind].
  rewrite split_index0. cbn [bind]. unfold py_int.
  destruct (parse_int (first_segment s)); reflexivity.
Qed.

(** C8: [calculate_age] returns null for null input; for a birth-date
    string whose first "-"-separated segment parses as an integer year Y
    it returns the current year minus Y; for every other string it
    returns null.  In all three cases it returns and raises nothing. *)
Theorem calculate_age_total (s : list N) :
  calculate_age today_year PNone = Ok PNone
  /\ calculate_age today_year (PStr s)
     = Ok match parse_int (first_segment s) with
          | Some birth_year => PInt (today_year - birth_year)
          | None => PNone
          end.
Proof. split; [reflexivity|apply calculate_age_str]. Qed.

(** C10: no range check on the birth year.  Whenever the first segment
    parses to a year Y the result is exactly the current year minus Y,
    also when Y lies in the future, where the result is a negative
    integer; it is never null. *)
Theorem calculate_age_no_range_check (s : list N) (Y : Z) :
  parse_int (first_segment s) = Some Y ->
  calculate_age today_year (PStr s) = Ok (PInt (today_year - Y))
  /\ (today_year < Y -> today_year - Y < 0)%Z
  /\ calculate_age today_year (PStr s) <> Ok PNone.
Proof.
  intros HY. rewrite calculate_age_str, HY.
  split; [reflexivity|]. split; [lia|discriminate].
Qed.

End AgeCalculator.

Lemma calculate_age_no_range_check_witness :
  parse_int (first_segment (u "2999-12-31")) = Some 2999%Z
  /\ calculate_age 2026 (PStr (u "2999-12-31")) = Ok (PInt (-973)).
Proof.
  split; [vm_compute; reflexivity|].
  apply (calculate_age_no_range_check 2026 (u "2999-12-31") 2999).
  vm_compute; reflexivity.
Defined.

(* ===================================================================== *)
(** * The per-record normaliser *)
(* ===================================================================== *)

Section RecordNormalizer.

Variable today_year : Z.

(** [process_item] on a dict whose [patientDetails] is a dict (or
    absent), with the dictionary bookkeeping carried out. *)
Lemma process_item_unfold (d pd : dict) :
  dict_get d (u "patientDetails") (PDict []) = PDict pd ->
  process_item today_year (PDict d)
  = (let phoneNumber := dict_get d (u "phoneNumber") PNone in
     let firstName := dict_get pd (u "firstName") PNone in
     let lastName := dict_get pd (u "lastName") PNone in
     let dob := dict_get pd (u "birthDate") PNone in
     age <- calculate_age today_year dob ;;
     medicines <- py_get (dict_get d (u "consultationData") (PDict []))
                    (u "medicines") (PList []) ;;
     fullName <- str_join (u " ") [firstName; lastName] ;;
     valid <- is_valid_indian_phone_number phoneNumber ;;
     hash <- (if valid
              then bytes <- py_encode_utf8 phoneNumber ;;
                   Ok (PStr (Sha256.hexdigest bytes))
              else Ok PNone) ;;
     Ok (canonical (dict_get d (u "appointmentId") PNone) phoneNumber
           firstName lastName
           (map_gender (dict_get pd (u "gender") PNone)) dob age
           (coerce_medicines medicines)
           (PStr fullName) (PBool valid) hash)).
Proof.
  intros Hpd. unfold process_item. cbn [py_get bind].
  rewrite Hpd. cbn [py_get bind].
  generalize (py_get (dict_get d (u "consultationData") (PDict []))
                (u "medicines") (PList [])) as medicines.
  generalize (dict_get d (u "appointmentId") PNone) as appointmentId.
  generalize (dict_get d (u "phoneNumber") PNone) as phoneNumber.
  generalize (dict_get pd (u "firstName") PNone) as firstName.
  generalize (dict_get pd (u "lastName") PNone) as lastName.
  generalize (dict_get pd (u "gender") PNone) as gender.
  generalize (dict_get pd (u "birthDate") PNone) as birthDate.
  intros. cbv zeta. unfold map_gender, coerce_medicines, canonical.
  dict_simpl.
  destruct (eq_str gender0 (u "M")); dict_simpl;
    [|destruct (eq_str gender0 (u "F")); dict_simpl];
    (destruct (calculate_age today_year birthDate) as [age|e];
     dict_simpl; [|reflexivity];
     destruct medicines0 as [medicines0|e]; dict_simpl; [|reflexivity];
     destruct (str_join (u " ") [firstName; lastName]) as [fullName|e];
     dict_simpl; [|reflexivity];
     destruct (is_valid_indian_phone_number phoneNumber) as [[|]|e];
     dict_simpl; cbn [truthy]; dict_simpl; [|reflexivity|reflexivity];
     destruct (py_encode_utf8 phoneNumber) as [bytes|e];
     dict_simpl; reflexivity).
Qed.

(** A raw record that is not a dict, or whose [patientDetails] is
    present but not a dict, is rejected with AttributeError. *)
Lemma process_item_not_dict (item : pyval) :
  (forall d, item <> PDict d) ->
  process_item today_year item = Raise AttributeError.
Proof.
  intros Hno. destruct item; try reflexivity. now destruct (Hno d).
Qed.

Lemma process_item_patient_not_dict (d : dict) :
  (forall pd, dict_get d (u "patientDetails") (PDict []) <> PDict pd) ->
  process_item today_year (PDict d) = Raise AttributeError.
Proof.
  intros Hno. unfold process_item. cbn [py_get bind].
  destruct (dict_get d (u "patientDetails") (PDict [])) eqn:Hpd;
    try reflexivity.
  now destruct (Hno d0).
Qed.

(** What a successful normalisation looks like. *)
Lemma process_item_inv (item : pyval) (r : dict) :
  process_item today_year item = Ok r ->
  exists d pd age medicines fullName valid hash,
    item = PDict d
    /\ dict_get d (u "patientDetails") (PDict []) = PDict pd
    /\ calculate_age today_year (dict_get pd (u "birthDate") PNone) = Ok age
    /\ py_get (dict_get d (u "consultationData") (PDict []))
         (u "medicines") (PList []) = Ok medicines
    /\ str_join (u " ") [dict_get pd (u "firstName") PNone;
                         dict_get pd (u "lastName") PNone] = Ok fullName
    /\ is_valid_indian_phone_number (dict_get d (u "phoneNumber") PNone)
       = Ok valid
    /\ (if valid
        then bytes <- py_encode_utf8 (dict_get d (u "phoneNumber") PNone) ;;
             Ok (PStr (Sha256.hexdigest bytes))
        else Ok PNone) = Ok hash
    /\ r = canonical (dict_get d (u "appointmentId") PNone)
             (dict_get d (u "phoneNumber") PNone)
             (dict_get pd (u "firstName") PNone)
             (dict_get pd (u "lastName") PNone)
             (map_gender (dict_get pd (u "gender") PNone))
             (dict_get pd (u "birthDate") PNone) age
             (coerce_medicines medicines) (PStr fullName) (PBool valid) hash.
Proof.
  intros H.
  destruct item as [| | | | | |d];
    try (rewrite process_item_not_dict in H by discriminate; discriminate H).
  destruct (dict_get d (u "patientDetails") (PDict [])) as [| | | | | |pd]
    eqn:Hpd;
    try (rewrite process_item_patient_not_dict in H
           by (rewrite Hpd; discriminate); discriminate H).
  rewrite (process_item_unfold d pd Hpd) in H. cbv zeta in H.
  destruct (calculate_age _ _) as [age|e] eqn:Hage; [|discriminate H].
  destruct (py_get _ _ _) as [medicines|e] eqn:Hmed; [|discriminate H].
  destruct (str_join _ _) as [fullName|e] eqn:Hname; [|discriminate H].
  destruct (is_valid_indian_phone_number _) as [valid|e] eqn:Hvalid;
    [|discriminate H].
  cbn [bind] in H.
  match type of H with
  | bind ?m _ = _ => destruct m as [hash|e] eqn:Hhash; [|discriminate H]
  end.
  cbn [bind] in H. injection H as <-.
  exists d, pd, age, medicines, fullName, valid, hash.
  repeat split; reflexivity || assumption.
Qed.

(** The join of line 102 needs two strings: the default [''] of
    [processed_item.get] is never used, because both keys were stored
    before, with None for an absent or null name. *)
Lemma fullName_needs_both_names (d pd : dict) :
  dict_get d (u "patientDetails") (PDict []) = PDict pd ->
  dict_get pd (u "firstName") PNone = PNone
  \/ dict_get pd (u "lastName") PNone = PNone ->
  forall r, process_item today_year (PDict d) <> Ok r.
Proof.
  intros Hpd Hnull r H.
  apply process_item_inv in H
    as (d' & pd' & age & meds & fullName & valid & hash
        & Hd & Hpd' & _ & _ & Hjoin & _).
  injection Hd as <-. rewrite Hpd in Hpd'. injection Hpd' as <-.
  destruct Hnull as [Hn|Hn]; rewrite Hn in Hjoin.
  - discriminate Hjoin.
  - cbn [str_join] in Hjoin.
    destruct (dict_get pd (u "firstName") PNone); discriminate Hjoin.
Qed.

(** C7: in every processed item, [phoneNumberHash] is non-null iff
    [isValidMobile] is true, and a non-null hash is the SHA-256 hex
    digest of the UTF-8 encoding of the raw [phoneNumber], which the
    item carries untouched. *)
Theorem phone_hash_iff_valid (item : pyval) (r : dict) :
  process_item today_year item = Ok r ->
  exists phoneNumber valid hash,
    py_get item (u "phoneNumber") PNone = Ok phoneNumber
    /\ dict_lookup r (u "phoneNumber") = Some phoneNumber
    /\ dict_lookup r (u "isValidMobile") = Some (PBool valid)
    /\ dict_lookup r (u "phoneNumberHash") = Some hash
    /\ (hash <> PNone <-> valid = true)
    /\ (hash <> PNone ->
        exists phone bytes,
          phoneNumber = PStr phone
          /\ utf8 phone = Some bytes
          /\ hash = PStr (Sha256.hexdigest bytes)).
Proof.
  intros H.
  apply process_item_inv in H
    as (d & pd & age & meds & fullName & valid & hash
        & -> & _ & _ & _ & _ & _ & Hhash & ->).
  exists (dict_get d (u "phoneNumber") PNone), valid, hash.
  split; [reflexivity|]. unfold canonical.
  repeat (split; [dict_simpl; reflexivity|]).
  destruct valid.
  - unfold py_encode_utf8 in Hhash.
    destruct (dict_get d (u "phoneNumber") PNone) as [| | | |phone| |];
      try discriminate Hhash.
    destruct (utf8 phone) as [bytes|] eqn:Hbytes; [|discriminate Hhash].
    cbn [bind] in Hhash. injection Hhash as <-.
    split; [split; [reflexivity|discriminate]|].
    intros _. now exists phone, bytes.
  - injection Hhash as <-.
    split; [split; [congruence|discriminate]|congruence].
Qed.

(** C5 (amended): "9199999999" has ten digits and starts with "91", so
    the validator answers true, and every normalisation that completes
    on a record with that phone number yields [isValidMobile = true]
    and, consistently, a non-null [phoneNumberHash]: the SHA-256 hex
    digest of the number. *)
Theorem phone_9199999999_is_valid (item : pyval) (r : dict) :
  py_get item (u "phoneNumber") PNone = Ok (PStr (u "9199999999")) ->
  process_item today_year item = Ok r ->
  is_valid_indian_phone_number (PStr (u "9199999999")) = Ok true
  /\ dict_lookup r (u "isValidMobile") = Some (PBool true)
  /\ dict_lookup r (u "phoneNumberHash")
     = Some (PStr (u "781dbb95a8db7e478d3ca8b6f3a0d48dbf94e8e4a7a2dc7c6e8a726421e812b4")).
Proof.
  intros Hphone H.
  assert (Hvalid : is_valid_indian_phone_number (PStr (u "9199999999"))
                   = Ok true) by (vm_compute; reflexivity).
  split; [exact Hvalid|].
  apply process_item_inv in H
    as (d & pd & age & meds & fullName & valid & hash
        & -> & _ & _ & _ & _ & Hv & Hhash & ->).
  cbn [py_get] in Hphone. injection Hphone as Hphone.
  rewrite Hphone in Hv, Hhash. rewrite Hvalid in Hv. injection Hv as <-.
  assert (Hh : hash = PStr (u "781dbb95a8db7e478d3ca8b6f3a0d48dbf94e8e4a7a2dc7c6e8a726421e812b4")).
  { vm_compute in Hhash. injection Hhash as <-. vm_compute. reflexivity. }
  subst hash. unfold canonical. split; dict_simpl; reflexivity.
Qed.

End RecordNormalizer.

(** C1 (code defect): a first-name-only record does not normalise to
    "Jane " but raises TypeError.  The key [lastName] is stored with
    None on line 76, so the [''] default of line 102 is never used and
    the join meets None. *)
Theorem first_name_only_raises :
  process_item 2026 (raw_with jane_only (PList [])) = Raise TypeError.
Proof. vm_compute. reflexivity. Qed.

(** C5 (as stated) fails: a record with phone number "9199999999"
    normalises to [isValidMobile = true] and a non-null hash. *)
Lemma phone_9199999999_counterexample :
  process_item 2026 (raw_with jane_doe (PList [])) = Ok (item_with [])
  /\ dict_lookup (item_with []) (u "isValidMobile") = Some (PBool true)
  /\ dict_lookup (item_with []) (u "phoneNumberHash") <> Some PNone.
Proof.
  split; [vm_compute; reflexivity|].
  split; [vm_compute; reflexivity|]. vm_compute. discriminate.
Qed.

Lemma phone_9199999999_is_valid_witness :
  py_get (raw_with jane_doe (PList [])) (u "phoneNumber") PNone
    = Ok (PStr (u "9199999999"))
  /\ process_item 2026 (raw_with jane_doe (PList [])) = Ok (item_with [])
  /\ dict_lookup (item_with []) (u "isValidMobile") = Some (PBool true).
Proof.
  split; [vm_compute; reflexivity|].
  split; [vm_compute; reflexivity|].
  apply (phone_9199999999_is_valid 2026 (raw_with jane_doe (PList []))
           (item_with [])); vm_compute; reflexivity.
Defined.

Lemma phone_hash_iff_valid_witness :
  process_item 2026 (raw_with jane_doe (PList [active_medicine]))
    = Ok (item_with [active_medicine])
  /\ exists phoneNumber valid hash,
       dict_lookup (item_with [active_medicine]) (u "phoneNumber")
         = Some phoneNumber
       /\ dict_lookup (item_with [active_medicine]) (u "isValidMobile")
          = Some (PBool valid)
       /\ dict_lookup (item_with [active_medicine]) (u "phoneNumberHash")
          = Some hash
       /\ (hash <> PNone <-> valid = true).
Proof.
  split; [vm_compute; reflexivity|].
  destruct (phone_hash_iff_valid 2026
              (raw_with jane_doe (PList [active_medicine]))
              (item_with [active_medicine]))
    as (phoneNumber & valid & hash & _ & H1 & H2 & H3 & H4 & _);
    [vm_compute; reflexivity|].
  exists phoneNumber, valid, hash. repeat split; try assumption; apply H4.
Defined.

(* ===================================================================== *)
(** * The aggregator *)
(* ===================================================================== *)

Lemma mapM_raises {A B} (f : A -> result B) (e : exn) (l : list A) :
  (forall x, In x l -> is_ok (f x) = true \/ f x = Raise e) ->
  (exists x, In x l /\ f x = Raise e) ->
  mapM f l = Raise e.
Proof.
  induction l as [|a l IH]; intros Hall [x [Hin Hx]]; [destruct Hin|].
  cbn [mapM]. destruct (Hall a (or_introl eq_refl)) as [Ha|Ha].
  - destruct (f a) as [b|e'] eqn:Hfa; [|discriminate Ha]. cbn [bind].
    destruct Hin as [->|Hin]; [congruence|].
    rewrite IH; [reflexivity| |now exists x].
    intros y Hy. apply Hall. now right.
  - now rewrite Ha.
Qed.

Lemma zeros_int64 (es : list pyval) :
  forallb is_int64 (List.map (fun _ => PInt 0) es) = true.
Proof.
  induction es as [|? ? IH]; [|cbn [List.map forallb]; rewrite IH];
    reflexivity.
Qed.

Lemma zeros_sum (es : list pyval) :
  fold_right Z.add 0%Z (List.map int_of (List.map (fun _ => PInt 0) es))
  = 0%Z.
Proof.
  induction es as [|? ? IH];
    [|cbn [List.map fold_right int_of]; rewrite IH]; reflexivity.
Qed.

(** The active count raises as soon as one record has no medicines: the
    empty list explodes to NaN, which has no [get]. *)
Lemma active_medicines_total_empty_list
    (df : DataFrame) (col : list pyval) :
  column df (u "medicines") = Ok col ->
  In (PList []) col ->
  active_medicines_total df = Raise AttributeError.
Proof.
  intros Hcol Hin. unfold active_medicines_total. rewrite Hcol. cbn [bind].
  unfold apply. rewrite (mapM_raises _ AttributeError); [reflexivity| |].
  - intros x _. destruct x; (now left) || (now right).
  - exists PNaN. split; [|reflexivity].
    unfold explode. apply in_concat. exists [PNaN]. split; [|now left].
    apply in_map_iff. now exists (PList []).
Qed.

(** [count_medicines] sees single entries after [explode], so a frame
    whose medicines hold no nested list totals 0. *)
Lemma medicines_total_zero
    (df : DataFrame) (col : list pyval) :
  column df (u "medicines") = Ok col ->
  (forall cell, In cell col ->
     exists l, cell = PList l /\ forallb (fun e => negb (is_list e)) l = true) ->
  medicines_total df = Ok (PInt 0).
Proof.
  intros Hcol Hflat. unfold medicines_total. rewrite Hcol. cbn [bind].
  assert (Hzero : apply (fun meds => Ok (count_medicines meds)) (explode col)
                  = Ok (List.map (fun _ => PInt 0) (explode col))).
  { assert (Hall : forall e, In e (explode col) -> is_list e = false).
    { intros e He. unfold explode in He. apply in_concat in He
        as [cellx [Hcellx He]].
      apply in_map_iff in Hcellx as [cell [<- Hcell]].
      destruct (Hflat cell Hcell) as [l [-> Hl]].
      destruct l as [|a l]; cbn [explode_cell] in He.
      - destruct He as [<-|[]]. reflexivity.
      - rewrite forallb_forall in Hl. apply negb_true_iff. now apply Hl. }
    revert Hall. generalize (explode col) as es.
    induction es as [|e es IH]; intros Hall; [reflexivity|].
    unfold apply in *. cbn [mapM List.map bind].
    rewrite IH by (intros e' He'; apply Hall; now right). cbn [bind].
    pose proof (Hall e (or_introl eq_refl)) as He.
    destruct e; try discriminate He; reflexivity. }
  rewrite Hzero. cbn [bind]. generalize (explode col) as es. intros es.
  unfold sum. destruct es as [|e es]; [reflexivity|].
  cbn [List.map forallb is_bool andb is_int64].
  pose proof (zeros_int64 es) as Hints.
  pose proof (zeros_sum es) as Hsum.
  change ((- 2 ^ 63 <=? 0)%Z && (0 <? 2 ^ 63)%Z) with true.
  cbn [andb]. rewrite Hints. cbn [fold_right int_of]. rewrite Hsum.
  reflexivity.
Qed.

(** C2 (code defect): on the two records with [medicines = []] and
    [medicines = [{"IsActive": true}]] the medicines total evaluates to
    0, not 1 (and the aggregation as a whole raises AttributeError); on
    the second record alone the aggregation returns with
    [medicines = 0] next to [activeMedicines = 1]. *)
Theorem medicines_total_counts_zero :
  medicines_total [item_with []; item_with [active_medicine]] = Ok (PInt 0)
  /\ generate_aggregated_data [item_with []; item_with [active_medicine]]
     = Raise AttributeError
  /\ exists summary,
       generate_aggregated_data [item_with [active_medicine]] = Ok summary
       /\ appointments summary = 1%nat
       /\ medicines summary = PInt 0
       /\ activeMedicines summary = PInt 1.
Proof.
  split; [vm_compute; reflexivity|]. split; [vm_compute; reflexivity|].
  eexists. split; [vm_compute; reflexivity|]. repeat split.
Qed.

(** C3 (code defect): the frame built from no records has no columns,
    so the aggregation of an empty collection raises KeyError at
    [dataframe['Age']] instead of returning the all-zero summary. *)
Theorem aggregate_empty_raises :
  process_json_data 2026 (PList []) = Ok []
  /\ generate_aggregated_data [] = Raise KeyError.
Proof. split; vm_compute; reflexivity. Qed.

(** C4 (code defect): the active count raises AttributeError on a
    record without medicines (the empty list explodes to NaN) and on a
    non-mapping entry; it only works when every entry is a mapping. *)
Theorem active_medicines_total_raises :
  active_medicines_total [item_with []] = Raise AttributeError
  /\ generate_aggregated_data [item_with []] = Raise AttributeError
  /\ active_medicines_total [item_with [PStr (u "not-a-mapping")]]
     = Raise AttributeError
  /\ active_medicines_total [item_with [active_medicine; PDict []]]
     = Ok (PInt 1).
Proof. repeat split; vm_compute; reflexivity. Qed.

(* ===================================================================== *)
(** * Further properties: the normaliser *)
(* ===================================================================== *)

Section NormalizerProperties.

Variable today_year : Z.

(** [calculate_age] can only raise AttributeError, and gives null or an
    integer. *)
Lemma calculate_age_outcome (birth_date : pyval) :
  calculate_age today_year birth_date = Raise AttributeError
  \/ calculate_age today_year birth_date = Ok PNone
  \/ exists a, calculate_age today_year birth_date = Ok (PInt a).
Proof.
  destruct birth_date as [| | | |s| |]; try (now left); [now right; left|].
  rewrite calculate_age_str.
  destruct (parse_int (first_segment s)) as [y|]; right;
    [right; now exists (today_year - y)%Z|now left].
Qed.

(** X1: a processed item has exactly the eleven keys appointmentId,
    phoneNumber, firstName, lastName, gender, DOB, Age, medicines,
    fullName, isValidMobile, phoneNumberHash, in this order; the key
    birthDate is gone. *)
Theorem processed_item_keys (item : pyval) (r : dict) :
  process_item today_year item = Ok r ->
  List.map fst r = canonical_keys
  /\ dict_lookup r (u "birthDate") = None.
Proof.
  intros H.
  apply process_item_inv in H
    as (d & pd & age & meds & fullName & valid & hash
        & _ & _ & _ & _ & _ & _ & _ & ->).
  split; [reflexivity|]. unfold canonical. dict_simpl. reflexivity.
Qed.

(** X2: the gender of a processed item is "male" exactly when the
    source gender is the string "M", "female" exactly when it is "F",
    and "others" for anything else (null, missing, another string, a
    non-string); no other value occurs. *)
Theorem gender_is_canonical (d : dict) (r : dict) :
  process_item today_year (PDict d) = Ok r ->
  exists pd g,
    dict_get d (u "patientDetails") (PDict []) = PDict pd
    /\ dict_lookup r (u "gender") = Some g
    /\ In g canonical_genders
    /\ (g = PStr (u "male")
        <-> dict_lookup pd (u "gender") = Some (PStr (u "M")))
    /\ (g = PStr (u "female")
        <-> dict_lookup pd (u "gender") = Some (PStr (u "F"))).
Proof.
  intros H.
  apply process_item_inv in H
    as (d' & pd & age & meds & fullName & valid & hash
        & Hd & Hpd & _ & _ & _ & _ & _ & ->).
  injection Hd as <-.
  exists pd, (map_gender (dict_get pd (u "gender") PNone)).
  split; [exact Hpd|]. split; [unfold canonical; dict_simpl; reflexivity|].
  unfold map_gender, dict_get, eq_str, canonical_genders.
  destruct (dict_lookup pd (u "gender")) as [[| | | |s| |]|];
    try (split; [cbn; tauto|split; split; discriminate]).
  destruct (bool_decide (s = u "M")) eqn:HM.
  - apply bool_decide_eq_true in HM. subst s.
    split; [now left|]. split; split; try reflexivity; discriminate.
  - apply bool_decide_eq_false in HM.
    destruct (bool_decide (s = u "F")) eqn:HF.
    + apply bool_decide_eq_true in HF. subst s.
      split; [right; now left|].
      split; split; try reflexivity; discriminate.
    + apply bool_decide_eq_false in HF.
      split; [right; right; now left|].
      split; split; try discriminate; intros [= ?]; contradiction.
Qed.

(** X3: the medicines of a processed item are always a list: the source
    list when [consultationData.medicines] is a list, and the empty
    list when it is missing, null or of any other shape. *)
Theorem medicines_always_list (d : dict) (r : dict) :
  process_item today_year (PDict d) = Ok r ->
  exists cd l,
    dict_get d (u "consultationData") (PDict []) = PDict cd
    /\ dict_lookup r (u "medicines") = Some (PList l)
    /\ (forall l', dict_lookup cd (u "medicines") = Some (PList l') -> l = l')
    /\ ((forall l', dict_lookup cd (u "medicines") <> Some (PList l')) ->
        l = []).
Proof.
  intros H.
  apply process_item_inv in H
    as (d' & pd & age & meds & fullName & valid & hash
        & Hd & _ & _ & Hmeds & _ & _ & _ & ->).
  injection Hd as <-.
  destruct (dict_get d (u "consultationData") (PDict []))
    as [| | | | | |cd] eqn:Hcd; try discriminate Hmeds.
  cbn [py_get] in Hmeds. injection Hmeds as <-.
  exists cd. unfold coerce_medicines, dict_get.
  destruct (dict_lookup cd (u "medicines")) as [m|] eqn:Hm.
  - destruct (is_list m) eqn:Hl; cbn [negb].
    + destruct m as [| | | | |l|]; try discriminate Hl.
      exists l. split; [reflexivity|].
      split; [unfold canonical; dict_simpl; reflexivity|].
      split; [now intros l' [= ->]|].
      intros Hno. now destruct (Hno l).
    + exists []. split; [reflexivity|].
      split; [unfold canonical; dict_simpl; reflexivity|].
      split; [|reflexivity].
      intros l' [= ->]. discriminate Hl.
  - exists []. split; [reflexivity|].
    split; [unfold canonical; dict_simpl; reflexivity|].
    split; [intros l' [= ]|reflexivity].
Qed.

(** X4: the processed item carries the raw birth date under DOB; when
    normalisation succeeds that value is null or a string, and Age is
    what [calculate_age] returns for it: null or an integer. *)
Theorem dob_and_age (d : dict) (r : dict) :
  process_item today_year (PDict d) = Ok r ->
  exists pd dob age,
    dict_get d (u "patientDetails") (PDict []) = PDict pd
    /\ dob = dict_get pd (u "birthDate") PNone
    /\ dict_lookup r (u "DOB") = Some dob
    /\ (is_none dob || is_str dob = true)
    /\ dict_lookup r (u "Age") = Some age
    /\ calculate_age today_year dob = Ok age
    /\ (age = PNone \/ exists a, age = PInt a).
Proof.
  intros H.
  apply process_item_inv in H
    as (d' & pd & age & meds & fullName & valid & hash
        & Hd & Hpd & Hage & _ & _ & _ & _ & ->).
  injection Hd as <-.
  exists pd, (dict_get pd (u "birthDate") PNone), age.
  split; [exact Hpd|]. split; [reflexivity|].
  split; [unfold canonical; dict_simpl; reflexivity|].
  split; [destruct (dict_get pd (u "birthDate") PNone);
          try discriminate Hage; reflexivity|].
  split; [unfold canonical; dict_simpl; reflexivity|].
  split; [exact Hage|].
  destruct (calculate_age_outcome (dict_get pd (u "birthDate") PNone))
    as [Hr|[Hr|[a Hr]]]; rewrite Hr in Hage;
    [discriminate Hage|injection Hage as <-; now left|].
  injection Hage as <-. right. now exists a.
Qed.

(** X5: when normalisation succeeds, both names are strings and
    fullName is the first name, one blank and the last name. *)
Theorem fullName_is_join (d : dict) (r : dict) :
  process_item today_year (PDict d) = Ok r ->
  exists pd first last,
    dict_get d (u "patientDetails") (PDict []) = PDict pd
    /\ dict_lookup pd (u "firstName") = Some (PStr first)
    /\ dict_lookup pd (u "lastName") = Some (PStr last)
    /\ dict_lookup r (u "firstName") = Some (PStr first)
    /\ dict_lookup r (u "lastName") = Some (PStr last)
    /\ dict_lookup r (u "fullName") = Some (PStr (first ++ [32] ++ last)).
Proof.
  intros H.
  apply process_item_inv in H
    as (d' & pd & age & meds & fullName & valid & hash
        & Hd & Hpd & _ & _ & Hjoin & _ & _ & ->).
  injection Hd as <-. exists pd. revert Hjoin. unfold dict_get.
  destruct (dict_lookup pd (u "firstName")) as [[| | | |first| |]|];
    try discriminate.
  destruct (dict_lookup pd (u "lastName")) as [[| | | |last| |]|];
    try discriminate.
  cbn [str_join bind]. intros [= <-]. exists first, last.
  split; [exact Hpd|]. split; [reflexivity|]. split; [reflexivity|].
  unfold canonical. repeat split; dict_simpl; reflexivity.
Qed.

(** X6: a record normalises whenever it is an object whose
    patientDetails is an object with string firstName and lastName and a
    null, missing or string birthDate, whose consultationData is an
    object or missing, and whose phoneNumber is null, missing, or a
    string without surrogate code points. *)
Theorem process_item_succeeds (d pd : dict) (first last : list N) :
  dict_get d (u "patientDetails") (PDict []) = PDict pd ->
  dict_lookup pd (u "firstName") = Some (PStr first) ->
  dict_lookup pd (u "lastName") = Some (PStr last) ->
  is_none (dict_get pd (u "birthDate") PNone)
  || is_str (dict_get pd (u "birthDate") PNone) = true ->
  is_dict (dict_get d (u "consultationData") (PDict [])) = true ->
  (dict_get d (u "phoneNumber") PNone = PNone
   \/ exists s bytes, dict_get d (u "phoneNumber") PNone = PStr s
                      /\ utf8 s = Some bytes) ->
  exists r, process_item today_year (PDict d) = Ok r.
Proof.
  intros Hpd Hfirst Hlast Hdob Hcd Hphone.
  rewrite (process_item_unfold today_year d pd Hpd). cbv zeta.
  assert (Hf : dict_get pd (u "firstName") PNone = PStr first)
    by (unfold dict_get; now rewrite Hfirst).
  assert (Hl : dict_get pd (u "lastName") PNone = PStr last)
    by (unfold dict_get; now rewrite Hlast).
  rewrite Hf, Hl.
  destruct (calculate_age_outcome
              (dict_get pd (u "birthDate") PNone)) as [Hr|Hage].
  { destruct (dict_get pd (u "birthDate") PNone);
      try discriminate Hdob; [discriminate Hr|].
    rewrite calculate_age_str in Hr. discriminate Hr. }
  assert (exists age, calculate_age today_year
                        (dict_get pd (u "birthDate") PNone) = Ok age)
    as [age ->] by (destruct Hage as [->|[a ->]]; eauto).
  cbn [bind].
  destruct (dict_get d (u "consultationData") (PDict []));
    try discriminate Hcd.
  cbn [py_get bind str_join].
  destruct Hphone as [->|(s & bytes & -> & Hbytes)].
  - cbn [is_valid_indian_phone_number bind]. eauto.
  - rewrite is_valid_str. cbn [bind py_encode_utf8]. rewrite Hbytes.
    destruct (digits_rule isdigit_char s); cbn [bind]; eauto.
Qed.

(** X7: a birth date that is neither null nor a string (a JSON number,
    list or object) is not recovered from: the record is rejected with
    AttributeError, which the [except ValueError] clause does not
    catch. *)
Theorem non_string_birth_date_raises (d pd : dict) :
  dict_get d (u "patientDetails") (PDict []) = PDict pd ->
  is_none (dict_get pd (u "birthDate") PNone)
  || is_str (dict_get pd (u "birthDate") PNone) = false ->
  process_item today_year (PDict d) = Raise AttributeError.
Proof.
  intros Hpd Hdob.
  rewrite (process_item_unfold today_year d pd Hpd). cbv zeta.
  destruct (dict_get pd (u "birthDate") PNone);
    try discriminate Hdob; reflexivity.
Qed.

(** X8: only an absent sub-object is read as empty.  A record that is
    not an object, or whose patientDetails or consultationData is
    present but not an object (null, for one), is rejected with
    AttributeError. *)
Theorem non_object_raises (item : pyval) :
  is_dict item = false
  \/ (exists d, item = PDict d
       /\ (is_dict (dict_get d (u "patientDetails") (PDict [])) = false
           \/ is_dict (dict_get d (u "consultationData") (PDict [])) = false)) ->
  process_item today_year item = Raise AttributeError.
Proof.
  intros [Hitem|(d & -> & Hsub)].
  { apply process_item_not_dict. intros d ->. discriminate Hitem. }
  destruct (dict_get d (u "patientDetails") (PDict []))
    as [| | | | | |pd] eqn:Hpd;
    try (apply process_item_patient_not_dict; rewrite Hpd; discriminate).
  destruct Hsub as [Hsub|Hcd]; [discriminate Hsub|].
  rewrite (process_item_unfold today_year d pd Hpd). cbv zeta.
  destruct (calculate_age_outcome
              (dict_get pd (u "birthDate") PNone)) as [->|[->|[a ->]]];
    [reflexivity| |];
    cbn [bind];
    destruct (dict_get d (u "consultationData") (PDict []));
    try discriminate Hcd; reflexivity.
Qed.

End NormalizerProperties.

(* ===================================================================== *)
(** * Further properties: validator, age and the record loop *)
(* ===================================================================== *)

Lemma filter_idempotent {A} (f : A -> bool) (l : list A) :
  List.filter f (List.filter f l) = List.filter f l.
Proof.
  induction l as [|a l IH]; [reflexivity|].
  cbn [List.filter]. destruct (f a) eqn:Hfa; [|exact IH].
  cbn [List.filter]. now rewrite Hfa, IH.
Qed.

(** X9: only the digit characters of a phone string matter.  Blanks,
    dashes, brackets, a leading plus sign and any other non-digit
    character can be removed without changing the verdict. *)
Theorem validator_ignores_non_digits (s : list N) :
  is_valid_indian_phone_number (PStr s)
  = is_valid_indian_phone_number (PStr (List.filter isdigit_char s)).
Proof.
  rewrite !is_valid_str. unfold digits_rule.
  now rewrite filter_idempotent.
Qed.

Lemma first_segment_prefix (y rest : list N) :
  forallb (fun c => negb (c =? 45)) y = true ->
  first_segment (y ++ 45 :: rest) = y /\ first_segment y = y.
Proof.
  unfold first_segment. induction y as [|c y IH]; intros Hy.
  - split; reflexivity.
  - cbn [forallb] in Hy. apply andb_true_iff in Hy as [Hc Hy].
    apply negb_true_iff in Hc. destruct (IH Hy) as [IH1 IH2].
    cbn [app str_split]. rewrite Hc.
    destruct (str_split_cons 45 (y ++ 45 :: rest)) as [seg [segs E1]].
    destruct (str_split_cons 45 y) as [seg' [segs' E2]].
    rewrite E1 in IH1 |- *. rewrite E2 in IH2 |- *.
    cbn [hd] in *. now subst.
Qed.

(** X10: the age depends on the text before the first "-" only: month
    and day, or whatever follows the first dash, are never looked at. *)
Theorem age_ignores_month_and_day (today_year : Z) (y rest : list N) :
  forallb (fun c => negb (c =? 45)) y = true ->
  calculate_age today_year (PStr (y ++ 45 :: rest))
  = calculate_age today_year (PStr y).
Proof.
  intros Hy. rewrite !calculate_age_str.
  destruct (first_segment_prefix y rest Hy) as [-> ->]. reflexivity.
Qed.

Lemma mapM_ok_iff {A B} (f : A -> result B) (l : list A) (l' : list B) :
  mapM f l = Ok l' <-> Forall2 (fun x y => f x = Ok y) l l'.
Proof.
  revert l'. induction l as [|a l IH]; intros l'; cbn [mapM].
  - split; [intros [= <-]; constructor|intros H; now inversion H].
  - split.
    + destruct (f a) as [b|e] eqn:Hfa; [|discriminate]. cbn [bind].
      destruct (mapM f l) as [bs|e] eqn:Hl; [|discriminate]. cbn [bind].
      intros [= <-]. constructor; [exact Hfa|now apply IH].
    + intros H. inversion H as [|x y xs ys Hxy Hrest]; subst.
      rewrite Hxy. cbn [bind]. apply IH in Hrest. now rewrite Hrest.
Qed.

Lemma mapM_first_failure {A B} (f : A -> result B) (l1 l2 : list A)
    (x : A) (e : exn) :
  forallb (fun a => is_ok (f a)) l1 = true ->
  f x = Raise e ->
  mapM f (l1 ++ x :: l2) = Raise e.
Proof.
  intros Hl1 Hx. induction l1 as [|a l1 IH]; cbn [app mapM].
  - now rewrite Hx.
  - cbn [forallb] in Hl1. apply andb_true_iff in Hl1 as [Ha Hl1].
    destruct (f a); [|discriminate Ha]. cbn [bind]. now rewrite (IH Hl1).
Qed.

(** X11: the record loop yields exactly one processed item per raw
    record, in input order: the frame of a list of records is the list
    of their processed items. *)
Theorem process_json_data_pointwise (today_year : Z)
    (items : list pyval) (df : DataFrame) :
  process_json_data today_year (PList items) = Ok df
  <-> Forall2 (fun item r => process_item today_year item = Ok r) items df.
Proof.
  unfold process_json_data. cbn [py_iter bind].
  rewrite <- mapM_ok_iff.
  destruct (mapM (process_item today_year) items); cbn [bind];
    split; congruence.
Qed.

(** X12: there is no per-record recovery: the first record that fails
    aborts the whole run with its exception, whatever follows it. *)
Theorem process_json_data_first_failure (today_year : Z)
    (before after : list pyval) (bad : pyval) (e : exn) :
  forallb (fun item => is_ok (process_item today_year item)) before = true ->
  process_item today_year bad = Raise e ->
  process_json_data today_year (PList (before ++ bad :: after)) = Raise e.
Proof.
  intros Hbefore Hbad. unfold process_json_data. cbn [py_iter bind].
  now rewrite (mapM_first_failure _ before after bad e Hbefore Hbad).
Qed.

(** X13: a document whose top level is not an array.  null, a number or
    a boolean raises TypeError (not iterable); an object or a string is
    iterated over its keys or characters, so a non-empty one raises
    AttributeError and an empty one gives the empty frame. *)
Theorem process_json_data_not_an_array (today_year : Z) (data : pyval) :
  is_list data = false ->
  process_json_data today_year data
  = match data with
    | PDict [] | PStr [] => Ok []
    | PDict (_ :: _) | PStr (_ :: _) => Raise AttributeError
    | _ => Raise TypeError
    end.
Proof.
  intros Hdata. unfold process_json_data.
  destruct data as [| | | |[|c s]| |[|[k v] d]]; try discriminate Hdata;
    reflexivity.
Qed.

(* ===================================================================== *)
(** * Further properties: the aggregator on the frames of the record loop *)
(* ===================================================================== *)

Lemma process_item_well_formed (today_year : Z) (item : pyval) (r : dict) :
  process_item today_year item = Ok r -> well_formed_row r.
Proof.
  intros H.
  apply process_item_inv in H
    as (d & pd & age & meds & fullName & valid & hash
        & _ & _ & Hage & _ & _ & _ & _ & ->).
  unfold well_formed_row.
  assert (Hlist : exists l, coerce_medicines meds = PList l).
  { unfold coerce_medicines. destruct meds; cbn; eauto. }
  destruct Hlist as [l ->].
  do 11 eexists. split; [reflexivity|]. split.
  - unfold map_gender, canonical_genders.
    destruct (eq_str _ _); [now left|].
    destruct (eq_str _ _); [right; now left|right; right; now left].
  - destruct (calculate_age_outcome today_year
                (dict_get pd (u "birthDate") PNone)) as [Hr|[Hr|[a Hr]]];
      rewrite Hr in Hage; [discriminate Hage| |];
      injection Hage as <-; [now left|right; now exists a].
Qed.

Lemma frame_well_formed (today_year : Z) (data : pyval) (df : DataFrame) :
  process_json_data today_year data = Ok df -> Forall well_formed_row df.
Proof.
  unfold process_json_data. intros H.
  destruct (py_iter data) as [items|e]; [|discriminate H]. cbn [bind] in H.
  destruct (mapM _ items) as [rows|e] eqn:Hrows; [|discriminate H].
  injection H as <-. apply mapM_ok_iff in Hrows.
  induction Hrows as [|item r items rows Hr _ IH]; constructor;
    [now apply (process_item_well_formed today_year item)|exact IH].
Qed.

Lemma well_formed_keys (r : dict) :
  well_formed_row r -> List.map fst r = canonical_keys.
Proof.
  intros (? & ? & ? & ? & ? & ? & ? & ? & ? & ? & ? & -> & _). reflexivity.
Qed.

(** The labels of a frame only depend on the keys of its rows. *)
Lemma columns_step_keys (row : dict) (cols : list (list N)) :
  fold_left (fun cols (kv : list N * pyval) =>
               if bool_decide (fst kv ∈ cols) then cols else cols ++ [fst kv])
            row cols
  = fold_left (fun cols k =>
                 if bool_decide (k ∈ cols) then cols else cols ++ [k])
              (List.map fst row) cols.
Proof.
  revert cols. induction row as [|kv row IH]; intros cols; [reflexivity|].
  cbn [fold_left List.map]. apply IH.
Qed.

Lemma columns_well_formed (df : DataFrame) :
  Forall well_formed_row df -> df <> [] -> columns df = canonical_keys.
Proof.
  intros Hdf Hne. destruct df as [|r rows]; [contradiction|].
  unfold columns. cbn [fold_left]. rewrite columns_step_keys.
  inversion Hdf as [|? ? Hr Hrows]; subst.
  rewrite (well_formed_keys r Hr).
  change (fold_left _ canonical_keys []) with canonical_keys.
  clear Hdf Hne Hr. induction Hrows as [|r' rows Hr' _ IH]; [reflexivity|].
  cbn [fold_left]. rewrite columns_step_keys, (well_formed_keys r' Hr').
  exact IH.
Qed.

Lemma column_well_formed (df : DataFrame) (c : list N) :
  Forall well_formed_row df -> df <> [] ->
  bool_decide (c ∈ canonical_keys) = true ->
  column df c = Ok (List.map (fun row => dict_get row c PNaN) df).
Proof.
  intros Hdf Hne Hc. unfold column.
  now rewrite (columns_well_formed df Hdf Hne), Hc.
Qed.

Lemma mapM_pure {A B} (g : A -> B) (l : list A) :
  mapM (fun x => Ok (g x)) l = Ok (List.map g l).
Proof.
  induction l as [|a l IH]; [reflexivity|].
  cbn [mapM bind List.map]. now rewrite IH.
Qed.

Lemma sum_objects_ints (a : Z) (col : list pyval) :
  forallb (fun v => match v with PInt _ => true | _ => false end) col = true ->
  exists n, sum_objects (PInt a) col = Ok (PInt n).
Proof.
  revert a. induction col as [|v col IH]; intros a Hcol; [now exists a|].
  cbn [forallb] in Hcol. apply andb_true_iff in Hcol as [Hv Hcol].
  destruct v; try discriminate Hv. cbn [sum_objects py_add bind int_of].
  now apply IH.
Qed.

(** The medicines total never raises, whatever the entries are. *)
Lemma medicines_total_ok (df : DataFrame) (col : list pyval) :
  column df (u "medicines") = Ok col ->
  exists n, medicines_total df = Ok (PInt n).
Proof.
  intros Hcol. unfold medicines_total, apply. rewrite Hcol. cbn [bind].
  rewrite mapM_pure. cbn [bind].
  generalize (explode col) as es. intros es.
  assert (Hints : forallb (fun v => match v with PInt _ => true | _ => false end)
                    (List.map count_medicines es) = true).
  { induction es as [|e es IH]; [reflexivity|].
    cbn [List.map forallb]. rewrite IH. now destruct e. }
  unfold sum. destruct (forallb is_bool _); [eauto|].
  destruct (forallb is_int64 _); [eauto|].
  assert (Hid : List.map (fun v => if isna v then PInt 0 else v)
                  (List.map count_medicines es)
                = List.map count_medicines es).
  { clear Hints. induction es as [|e es IH]; [reflexivity|].
    cbn [List.map]. rewrite IH. now destruct e. }
  rewrite Hid. destruct (List.map count_medicines es) as [|v vs]; [eauto|].
  cbn [forallb] in Hints. apply andb_true_iff in Hints as [Hv Hvs].
  destruct v; try discriminate Hv. now apply sum_objects_ints.
Qed.

Lemma hash_key_sequence_ok (col : list pyval) :
  forallb (fun v => negb (is_list v || is_dict v)) col = true ->
  exists m, value_counts col = Ok m.
Proof.
  induction col as [|v col IH]; intros Hcol; [now exists ∅|].
  cbn [forallb] in Hcol. apply andb_true_iff in Hcol as [Hv Hcol].
  destruct (IH Hcol) as [m Hm]. cbn [value_counts]. rewrite Hm.
  destruct v; try discriminate Hv; cbn [hash_key bind]; eauto.
Qed.

Lemma sum_bools (col : list pyval) :
  forallb is_bool col = true ->
  sum col = Ok (PInt (Z.of_nat (length (List.filter is_true col)))).
Proof.
  intros Hcol. unfold sum. rewrite Hcol. do 2 f_equal.
  induction col as [|v col IH]; [reflexivity|].
  cbn [forallb] in Hcol. apply andb_true_iff in Hcol as [Hv Hcol].
  cbn [List.map fold_right List.filter]. rewrite (IH Hcol).
  destruct v as [|[|]| | | | |]; try discriminate Hv;
    cbn [int_of is_true length]; lia.
Qed.

(** The flags of the active count: all read when every entry is a
    mapping, AttributeError otherwise. *)
Lemma active_flags (es : list pyval) :
  apply (fun medicine => py_get medicine (u "IsActive") (PBool false)) es
  = if forallb is_dict es then Ok (List.map active_flag es)
    else Raise AttributeError.
Proof.
  unfold apply. destruct (forallb is_dict es) eqn:Hes.
  - induction es as [|e es IH]; [reflexivity|].
    cbn [forallb] in Hes. apply andb_true_iff in Hes as [He Hes].
    cbn [mapM List.map]. rewrite (IH Hes).
    destruct e; try discriminate He. reflexivity.
  - apply mapM_raises.
    + intros x _. destruct x; (now left) || (now right).
    + apply not_true_iff_false in Hes.
      assert (Hex : existsb (fun e => negb (is_dict e)) es = true).
      { destruct (existsb _ es) eqn:Hx; [reflexivity|]. exfalso. apply Hes.
        apply forallb_forall. intros e He.
        apply not_true_iff_false in Hx.
        destruct (is_dict e) eqn:Hd; [reflexivity|]. exfalso. apply Hx.
        apply existsb_exists. exists e. now rewrite Hd. }
      apply existsb_exists in Hex as [e [He Hd]]. exists e. split; [exact He|].
      destruct e; try discriminate Hd; reflexivity.
Qed.

Lemma well_formed_cells (r : dict) :
  well_formed_row r ->
  exists g age l valid,
    dict_get r (u "gender") PNaN = g /\ In g canonical_genders
    /\ dict_get r (u "Age") PNaN = age
    /\ (age = PNone \/ exists a, age = PInt a)
    /\ dict_get r (u "medicines") PNaN = PList l
    /\ dict_get r (u "isValidMobile") PNaN = PBool valid.
Proof.
  intros (? & ? & ? & ? & g & ? & age & l & ? & valid & ? & -> & Hg & Hage).
  exists g, age, l, valid. unfold canonical.
  repeat split; try assumption; dict_simpl; reflexivity.
Qed.

Lemma filter_map_length {A B} (p : B -> bool) (f : A -> B) (l : list A) :
  length (List.filter p (List.map f l))
  = length (List.filter (fun x => p (f x)) l).
Proof.
  induction l as [|a l IH]; [reflexivity|].
  cbn [List.map List.filter]. destruct (p (f a)); cbn [length]; now rewrite IH.
Qed.

(** On a frame of the record loop everything before the active count
    succeeds: the two tallies, the valid-phone count and the medicines
    total. *)
Lemma aggregate_unfold (df : DataFrame) :
  Forall well_formed_row df -> df <> [] ->
  exists age gender n,
    value_counts (List.map (fun row => dict_get row (u "Age") PNaN) df)
      = Ok age
    /\ value_counts (List.map (fun row => dict_get row (u "gender") PNaN) df)
       = Ok gender
    /\ medicines_total df = Ok (PInt n)
    /\ generate_aggregated_data df
       = (active <- active_medicines_total df ;;
          Ok {| Age := age; gender := gender;
                validPhoneNumbers :=
                  PInt (Z.of_nat (count_where is_true (u "isValidMobile") df));
                appointments := length df;
                medicines := PInt n;
                activeMedicines := active |}).
Proof.
  intros Hdf Hne.
  assert (Hage : exists m, value_counts
                   (List.map (fun row => dict_get row (u "Age") PNaN) df)
                 = Ok m).
  { apply hash_key_sequence_ok. rewrite forallb_forall. intros v Hv.
    apply in_map_iff in Hv as [row [<- Hrow]].
    rewrite Forall_forall in Hdf. apply list_elem_of_In in Hrow.
    destruct (well_formed_cells row (Hdf row Hrow))
      as (g & age & l & valid & _ & _ & -> & [->|[a ->]] & _); reflexivity. }
  assert (Hgender : exists m, value_counts
                      (List.map (fun row => dict_get row (u "gender") PNaN) df)
                    = Ok m).
  { apply hash_key_sequence_ok. rewrite forallb_forall. intros v Hv.
    apply in_map_iff in Hv as [row [<- Hrow]].
    rewrite Forall_forall in Hdf. apply list_elem_of_In in Hrow.
    destruct (well_formed_cells row (Hdf row Hrow))
      as (g & age & l & valid & -> & Hg & _).
    cbn [canonical_genders In] in Hg.
    destruct Hg as [<-|[<-|[<-|[]]]]; reflexivity. }
  assert (Hvalid : forallb is_bool
                     (List.map (fun row => dict_get row (u "isValidMobile") PNaN)
                        df) = true).
  { rewrite forallb_forall. intros v Hv.
    apply in_map_iff in Hv as [row [<- Hrow]].
    rewrite Forall_forall in Hdf. apply list_elem_of_In in Hrow.
    destruct (well_formed_cells row (Hdf row Hrow))
      as (g & age & l & valid & _ & _ & _ & _ & _ & ->). reflexivity. }
  destruct Hage as [age Hage]. destruct Hgender as [gender Hgender].
  destruct (medicines_total_ok df _
              (column_well_formed df (u "medicines") Hdf Hne eq_refl))
    as [n Hn].
  exists age, gender, n. repeat split; try assumption.
  unfold generate_aggregated_data.
  rewrite (column_well_formed df (u "Age") Hdf Hne eq_refl). cbn [bind].
  rewrite Hage. cbn [bind].
  rewrite (column_well_formed df (u "gender") Hdf Hne eq_refl). cbn [bind].
  rewrite Hgender. cbn [bind].
  rewrite (column_well_formed df (u "isValidMobile") Hdf Hne eq_refl).
  cbn [bind]. rewrite (sum_bools _ Hvalid). cbn [bind].
  rewrite Hn. cbn [bind]. rewrite filter_map_length. reflexivity.
Qed.

(** What [explode] makes of the medicines column of such a frame. *)
Lemma explode_medicines (df : DataFrame) :
  Forall well_formed_row df ->
  let col := List.map (fun row => dict_get row (u "medicines") PNaN) df in
  (forall e, In e (all_medicines df) -> In e (explode col))
  /\ (existsb has_no_medicines df = true -> In PNaN (explode col))
  /\ (existsb has_no_medicines df = false -> explode col = all_medicines df).
Proof.
  intros Hdf. cbv zeta. unfold explode, all_medicines.
  induction Hdf as [|row df Hrow Hdf (IH1 & IH2 & IH3)];
    [repeat split; [intros e []|discriminate]|].
  destruct (well_formed_cells row Hrow)
    as (g & age & l & valid & _ & _ & _ & _ & Hl & _).
  cbn [List.map concat existsb]. unfold has_no_medicines at 1 3.
  rewrite Hl. repeat split.
  - intros e He. apply in_app_or in He as [He|He]; apply in_or_app.
    + left. destruct l; [destruct He|exact He].
    + right. now apply IH1.
  - intros H. apply in_or_app. destruct l; [left; now left|].
    right. now apply IH2.
  - intros H. destruct l; [discriminate H|]. cbn [explode_cell orb] in *.
    now rewrite (IH3 H).
Qed.

Lemma aggregate_empty_frame : generate_aggregated_data [] = Raise KeyError.
Proof. vm_compute. reflexivity. Qed.

Lemma frame_needs_mappings (df : DataFrame) :
  Forall well_formed_row df ->
  existsb has_no_medicines df
  || existsb (fun e => negb (is_dict e)) (all_medicines df) = true ->
  generate_aggregated_data df = Raise AttributeError.
Proof.
  intros Hdf Hbad.
  assert (Hne : df <> []) by (intros ->; discriminate Hbad).
  destruct (aggregate_unfold df Hdf Hne) as (age & gender & n & _ & _ & _ & ->).
  unfold active_medicines_total.
  rewrite (column_well_formed df (u "medicines") Hdf Hne eq_refl).
  cbn [bind]. rewrite active_flags.
  destruct (explode_medicines df Hdf) as (Hin & Hnan & _).
  assert (Hno : forallb is_dict
                  (explode (List.map
                     (fun row => dict_get row (u "medicines") PNaN) df))
                = false).
  { apply not_true_iff_false. intros Hall. rewrite forallb_forall in Hall.
    apply orb_true_iff in Hbad as [Hbad|Hbad].
    - specialize (Hall PNaN (Hnan Hbad)). discriminate Hall.
    - apply existsb_exists in Hbad as [e [He Hd]].
      rewrite (Hall e (Hin e He)) in Hd. discriminate Hd. }
  rewrite Hno. reflexivity.
Qed.

(** X14: on the frame of a run, the aggregation raises AttributeError as
    soon as one record has no medicines (missing, null, not a list or
    empty in the source) or one medicine is not a mapping. *)
Theorem aggregation_needs_mappings (today_year : Z) (data : pyval)
    (df : DataFrame) :
  process_json_data today_year data = Ok df ->
  existsb has_no_medicines df
  || existsb (fun e => negb (is_dict e)) (all_medicines df) = true ->
  generate_aggregated_data df = Raise AttributeError.
Proof.
  intros Hrun Hbad.
  exact (frame_needs_mappings df (frame_well_formed _ _ _ Hrun) Hbad).
Qed.

(** X15: whenever the aggregation of a run returns, every record has at
    least one medicine and every medicine is a mapping; the summary then
    has [appointments] equal to the number of records,
    [validPhoneNumbers] equal to the number of records with
    [isValidMobile] true, and [medicines] equal to 0: the medicines
    count of a returned summary is never anything else. *)
Theorem aggregation_result (today_year : Z) (data : pyval)
    (df : DataFrame) (summary : AggregateSummary) :
  process_json_data today_year data = Ok df ->
  generate_aggregated_data df = Ok summary ->
  existsb has_no_medicines df = false
  /\ forallb is_dict (all_medicines df) = true
  /\ appointments summary = length df
  /\ validPhoneNumbers summary
     = PInt (Z.of_nat (count_where is_true (u "isValidMobile") df))
  /\ medicines summary = PInt 0.
Proof.
  intros Hrun Hagg. pose proof (frame_well_formed _ _ _ Hrun) as Hdf.
  assert (Hne : df <> [])
    by (intros ->; rewrite aggregate_empty_frame in Hagg; discriminate Hagg).
  assert (Hgood : existsb has_no_medicines df
                  || existsb (fun e => negb (is_dict e)) (all_medicines df)
                  = false).
  { apply not_true_is_false. intros Hbad.
    rewrite (frame_needs_mappings df Hdf Hbad) in Hagg. discriminate Hagg. }
  apply orb_false_elim in Hgood as [Hnone Hmaps].
  assert (Hdicts : forallb is_dict (all_medicines df) = true).
  { apply forallb_forall. intros e He.
    destruct (is_dict e) eqn:Hd; [reflexivity|].
    apply not_true_iff_false in Hmaps. exfalso. apply Hmaps.
    apply existsb_exists. exists e. now rewrite Hd. }
  destruct (aggregate_unfold df Hdf Hne)
    as (age & gender & n & _ & _ & Hn & Heq).
  rewrite Heq in Hagg.
  destruct (active_medicines_total df) as [active|e]; [|discriminate Hagg].
  cbn [bind] in Hagg. injection Hagg as <-. cbn.
  repeat split; try assumption.
  assert (Hzero : medicines_total df = Ok (PInt 0)).
  { apply (medicines_total_zero df _
             (column_well_formed df (u "medicines") Hdf Hne eq_refl)).
    intros cell Hcell. apply in_map_iff in Hcell as [row [<- Hrow]].
    pose proof Hdf as Hdf'. rewrite Forall_forall in Hdf'.
    destruct (well_formed_cells row (Hdf' row (proj2 (list_elem_of_In _ _) Hrow)))
      as (g & a & l & valid & _ & _ & _ & _ & Hl & _).
    exists l. split; [exact Hl|]. apply forallb_forall. intros e He.
    rewrite forallb_forall in Hdicts.
    assert (Hin : In e (all_medicines df)).
    { unfold all_medicines. apply in_concat. exists l. split; [|exact He].
      apply in_map_iff. exists row. now rewrite Hl. }
    specialize (Hdicts e Hin). now destruct e. }
  rewrite Hzero in Hn. now injection Hn as <-.
Qed.

(** X16: when every record of a run has at least one medicine and every
    medicine is a mapping whose IsActive is absent or a boolean, the
    aggregation returns and [activeMedicines] is the number of
    medicines whose IsActive is true. *)
Theorem active_medicines_counts_flags (today_year : Z) (data : pyval)
    (df : DataFrame) :
  process_json_data today_year data = Ok df ->
  df <> [] ->
  existsb has_no_medicines df = false ->
  forallb (fun e => is_dict e && is_bool (active_flag e)) (all_medicines df)
    = true ->
  exists summary,
    generate_aggregated_data df = Ok summary
    /\ activeMedicines summary
       = PInt (Z.of_nat (length (List.filter
                                   (fun e => is_true (active_flag e))
                                   (all_medicines df)))).
Proof.
  intros Hrun Hne Hnone Hflags.
  pose proof (frame_well_formed _ _ _ Hrun) as Hdf.
  destruct (aggregate_unfold df Hdf Hne) as (age & gender & n & _ & _ & _ & ->).
  unfold active_medicines_total.
  rewrite (column_well_formed df (u "medicines") Hdf Hne eq_refl).
  cbn [bind]. rewrite active_flags.
  destruct (explode_medicines df Hdf) as (_ & _ & Hexp).
  rewrite (Hexp Hnone).
  assert (Hdicts : forallb is_dict (all_medicines df) = true).
  { rewrite forallb_forall in Hflags |- *. intros e He.
    specialize (Hflags e He). now apply andb_true_iff in Hflags. }
  rewrite Hdicts. cbn [bind].
  assert (Hbools : forallb is_bool (List.map active_flag (all_medicines df))
                   = true).
  { rewrite forallb_forall in Hflags |- *. intros v Hv.
    apply in_map_iff in Hv as [e [<- He]].
    specialize (Hflags e He). now apply andb_true_iff in Hflags. }
  rewrite (sum_bools _ Hbools). cbn [bind].
  eexists. split; [reflexivity|]. cbn. now rewrite filter_map_length.
Qed.

(* ===================================================================== *)
(** * Further properties: the tallies *)
(* ===================================================================== *)

Lemma default_nonzero (n : nat) : default O (nonzero n) = n.
Proof. now destruct n. Qed.

(** [value_counts] tallies every key with the number of its cells, and
    has no entry for a key without cells. *)
Lemma value_counts_lookup (col : list pyval) :
  forall m, value_counts col = Ok m ->
  forall k, m !! k = nonzero (length (List.filter (has_key k) col)).
Proof.
  induction col as [|v col IH]; intros m Hm k.
  - injection Hm as <-. apply lookup_empty.
  - cbn [value_counts] in Hm. unfold has_key at 1. cbn [List.filter].
    destruct (hash_key v) as [ko|e]; [|discriminate Hm]. cbn [bind] in Hm.
    destruct (value_counts col) as [m'|e]; [|discriminate Hm].
    cbn [bind] in Hm. injection Hm as <-.
    specialize (IH m' eq_refl).
    destruct ko as [k0|]; [|apply IH].
    rewrite lookup_insert. destruct (decide (k0 = k)) as [->|Hne].
    + rewrite bool_decide_eq_true_2 by reflexivity. cbn [length nonzero].
      now rewrite IH, default_nonzero.
    + rewrite bool_decide_eq_false_2 by exact Hne. apply IH.
Qed.

Lemma nonzero_some_in {A} (p : A -> bool) (l : list A) :
  is_Some (nonzero (length (List.filter p l))) ->
  exists x, In x l /\ p x = true.
Proof.
  destruct (List.filter p l) as [|x xs] eqn:Hf; [intros [? [=]]|].
  intros _. exists x. apply filter_In. rewrite Hf. now left.
Qed.

Lemma filter_ext_length {A} (p q : A -> bool) (l : list A) :
  (forall x, In x l -> p x = q x) ->
  length (List.filter p l) = length (List.filter q l).
Proof.
  intros H. now rewrite (filter_ext_in p q l H).
Qed.

(** X17: in the summary of a run, the gender tally gives, for every
    string g, the number of records whose gender is g, and it has no
    key besides "male", "female" and "others". *)
Theorem gender_tally (today_year : Z) (data : pyval)
    (df : DataFrame) (summary : AggregateSummary) :
  process_json_data today_year data = Ok df ->
  generate_aggregated_data df = Ok summary ->
  (forall g, gender summary !! KStr g
             = nonzero (count_where (fun v => eq_str v g) (u "gender") df))
  /\ (forall k, is_Some (gender summary !! k) ->
                In k [KStr (u "male"); KStr (u "female"); KStr (u "others")]).
Proof.
  intros Hrun Hagg. pose proof (frame_well_formed _ _ _ Hrun) as Hdf.
  assert (Hne : df <> [])
    by (intros ->; rewrite aggregate_empty_frame in Hagg; discriminate Hagg).
  destruct (aggregate_unfold df Hdf Hne)
    as (age & tally & n & _ & Htally & _ & Heq).
  rewrite Heq in Hagg.
  destruct (active_medicines_total df) as [active|e]; [|discriminate Hagg].
  cbn [bind] in Hagg. injection Hagg as <-. cbn [gender].
  pose proof (value_counts_lookup _ tally Htally) as Hlookup.
  split.
  - intros g. rewrite Hlookup, filter_map_length. unfold count_where.
    f_equal. apply filter_ext_length. intros row _.
    unfold has_key, eq_str.
    destruct (dict_get row (u "gender") PNaN) as [|[|]| | |s| |];
      cbn [hash_key]; try reflexivity.
    destruct (decide (s = g)) as [->|Hsg].
    + now rewrite !bool_decide_eq_true_2.
    + rewrite !bool_decide_eq_false_2; [reflexivity|exact Hsg|congruence].
  - intros k Hk. rewrite Hlookup in Hk.
    apply nonzero_some_in in Hk as [v [Hv Hkey]].
    apply in_map_iff in Hv as [row [<- Hrow]].
    rewrite Forall_forall in Hdf. apply list_elem_of_In in Hrow.
    destruct (well_formed_cells row (Hdf row Hrow))
      as (g & a & l & valid & Hg & Hin & _).
    rewrite Hg in Hkey. cbn [canonical_genders In] in Hin.
    unfold has_key in Hkey.
    destruct Hin as [<-|[<-|[<-|[]]]]; cbn [hash_key] in Hkey;
      apply bool_decide_eq_true in Hkey; subst k; cbn; tauto.
Qed.


(* ===================================================================== *)
(** * Further properties: the form of the phone hash *)
(* ===================================================================== *)

Lemma round_length (st : list N) (k w : N) :
  length (Sha256.round st k w) = length st.
Proof.
  destruct st as [|a [|b [|c [|d [|e [|f [|g [|h [|i st]]]]]]]]];
    reflexivity.
Qed.

Lemma rounds_length (ks win st : list N) :
  length (Sha256.rounds ks win st) = length st.
Proof.
  revert win st. induction ks as [|k ks IH]; intros win st; [reflexivity|].
  cbn [Sha256.rounds]. cbv zeta. now rewrite IH, round_length.
Qed.

Lemma add_words_length (xs ys : list N) :
  length xs = length ys -> length (Sha256.add_words xs ys) = length xs.
Proof.
  revert ys. induction xs as [|x xs IH]; intros [|y ys] H;
    try reflexivity; try discriminate H.
  cbn [Sha256.add_words length]. f_equal. apply IH. now injection H.
Qed.

Lemma compress_all_length (bs : list (list N)) (h : list N) :
  length (fold_left Sha256.compress bs h) = length h.
Proof.
  revert h. induction bs as [|b bs IH]; intros h; [reflexivity|].
  cbn [fold_left]. rewrite IH. unfold Sha256.compress.
  apply add_words_length. now rewrite rounds_length.
Qed.

Lemma be_bytes_spec (n : nat) (x : N) :
  length (Sha256.be_bytes n x) = n
  /\ Forall (fun b => b < 256) (Sha256.be_bytes n x).
Proof.
  induction n as [|n [IHl IHb]]; [split; [reflexivity|constructor]|].
  cbn [Sha256.be_bytes length]. split; [now rewrite IHl|].
  constructor; [|exact IHb].
  change 0xFF with (N.ones 8). rewrite N.land_ones.
  apply N.mod_lt. discriminate.
Qed.

Lemma digest_spec (msg : list N) :
  length (Sha256.digest msg) = 32%nat
  /\ Forall (fun b => b < 256) (Sha256.digest msg).
Proof.
  unfold Sha256.digest. cbv zeta.
  match goal with
  | |- context [fold_left Sha256.compress ?bs Sha256.H0] =>
      pose proof (compress_all_length bs Sha256.H0) as Hlen;
      generalize dependent (fold_left Sha256.compress bs Sha256.H0)
  end.
  intros h Hlen. change (length Sha256.H0) with 8%nat in Hlen.
  assert (Hgen : forall ws : list N,
            length (concat (List.map (Sha256.be_bytes 4) ws))
            = (4 * length ws)%nat
            /\ Forall (fun b => b < 256)
                 (concat (List.map (Sha256.be_bytes 4) ws))).
  { induction ws as [|x ws [IHl IHb]]; [split; [reflexivity|constructor]|].
    cbn [List.map concat]. destruct (be_bytes_spec 4 x) as [Hl Hb].
    split.
    - rewrite length_app, Hl, IHl. cbn [length]. lia.
    - apply Forall_app. now split. }
  destruct (Hgen h) as [Hl Hb]. split; [rewrite Hl, Hlen; reflexivity|exact Hb].
Qed.

Lemma hex_digit_lower (n : N) :
  n < 16 -> is_lower_hex (Sha256.hex_digit n) = true.
Proof.
  intros Hn. unfold Sha256.hex_digit, is_lower_hex.
  destruct (N.ltb_spec n 10); apply orb_true_iff; [left|right];
    apply andb_true_iff; split; apply N.leb_le; lia.
Qed.

Lemma hexdigest_spec (msg : list N) :
  length (Sha256.hexdigest msg) = 64%nat
  /\ forallb is_lower_hex (Sha256.hexdigest msg) = true.
Proof.
  unfold Sha256.hexdigest. destruct (digest_spec msg) as [Hlen Hbytes].
  revert Hlen Hbytes. generalize (Sha256.digest msg) as bs. intros bs Hlen Hbytes.
  assert (Hgen : length (concat (List.map
              (fun b => [Sha256.hex_digit (N.shiftr b 4);
                         Sha256.hex_digit (N.land b 0xF)]) bs))
            = (2 * length bs)%nat
            /\ forallb is_lower_hex (concat (List.map
                 (fun b => [Sha256.hex_digit (N.shiftr b 4);
                            Sha256.hex_digit (N.land b 0xF)]) bs)) = true).
  { clear Hlen. induction Hbytes as [|b bs Hb _ [IHl IHh]];
      [split; reflexivity|].
    cbn [List.map concat app length forallb]. split; [rewrite IHl; lia|].
    rewrite IHh, !hex_digit_lower; [reflexivity| |].
    - change 0xF with (N.ones 4). rewrite N.land_ones.
      apply N.mod_lt. discriminate.
    - rewrite N.shiftr_div_pow2. change (2 ^ 4) with 16.
      apply N.Div0.div_lt_upper_bound. exact Hb. }
  destruct Hgen as [Hl Hh]. split; [rewrite Hl, Hlen; reflexivity|exact Hh].
Qed.

(** X19: the hash of a processed item with a valid mobile number is a
    text of exactly 64 characters, each one of 0-9 or a-f. *)
Theorem phone_hash_is_64_hex (today_year : Z) (item : pyval) (r : dict) :
  process_item today_year item = Ok r ->
  dict_lookup r (u "isValidMobile") = Some (PBool true) ->
  exists h,
    dict_lookup r (u "phoneNumberHash") = Some (PStr h)
    /\ length h = 64%nat
    /\ forallb is_lower_hex h = true.
Proof.
  intros H Hvalid.
  apply process_item_inv in H
    as (d & pd & age & meds & fullName & valid & hash
        & _ & _ & _ & _ & _ & _ & Hhash & ->).
  unfold canonical in Hvalid |- *.
  revert Hvalid. dict_simpl. intros [= ->].
  destruct (py_encode_utf8 _) as [bytes|e]; [|discriminate Hhash].
  cbn [bind] in Hhash. injection Hhash as <-.
  exists (Sha256.hexdigest bytes). split; [reflexivity|].
  apply hexdigest_spec.
Qed.

(* ===================================================================== *)
(** * The further properties on concrete records *)
(* ===================================================================== *)

Lemma jane_normalises :
  process_item 2026 (PDict (jane_record (PList [active_medicine])))
  = Ok (item_with [active_medicine]).
Proof. vm_compute. reflexivity. Qed.

Lemma one_active_run_frame :
  process_json_data 2026 one_active_run = Ok one_active_frame.
Proof. vm_compute. reflexivity. Qed.

Lemma no_medicines_run_frame :
  process_json_data 2026 no_medicines_run = Ok no_medicines_frame.
Proof. vm_compute. reflexivity. Qed.

Lemma processed_item_keys_witness :
  process_item 2026 (PDict (jane_record (PList [active_medicine])))
    = Ok (item_with [active_medicine])
  /\ List.map fst (item_with [active_medicine]) = canonical_keys.
Proof.
  split; [exact jane_normalises|].
  apply (processed_item_keys 2026 _ _ jane_normalises).
Defined.

Lemma gender_is_canonical_witness :
  exists pd g,
    dict_get (jane_record (PList [active_medicine])) (u "patientDetails")
      (PDict []) = PDict pd
    /\ dict_lookup (item_with [active_medicine]) (u "gender") = Some g
    /\ In g canonical_genders.
Proof.
  destruct (gender_is_canonical 2026 _ _ jane_normalises)
    as (pd & g & H1 & H2 & H3 & _).
  now exists pd, g.
Defined.

Lemma medicines_always_list_witness :
  exists l, dict_lookup (item_with [active_medicine]) (u "medicines")
            = Some (PList l).
Proof.
  destruct (medicines_always_list 2026 _ _ jane_normalises)
    as (cd & l & _ & H & _).
  now exists l.
Defined.

Lemma dob_and_age_witness :
  exists dob age,
    dict_lookup (item_with [active_medicine]) (u "DOB") = Some dob
    /\ dict_lookup (item_with [active_medicine]) (u "Age") = Some age
    /\ calculate_age 2026 dob = Ok age.
Proof.
  destruct (dob_and_age 2026 _ _ jane_normalises)
    as (pd & dob & age & _ & _ & H1 & _ & H2 & H3 & _).
  now exists dob, age.
Defined.

Lemma fullName_is_join_witness :
  exists first last,
    dict_lookup (item_with [active_medicine]) (u "fullName")
    = Some (PStr (first ++ [32] ++ last)).
Proof.
  destruct (fullName_is_join 2026 _ _ jane_normalises)
    as (pd & first & last & _ & _ & _ & _ & _ & H).
  now exists first, last.
Defined.

Lemma process_item_succeeds_witness :
  exists r, process_item 2026 (PDict (jane_record (PList []))) = Ok r.
Proof.
  refine (process_item_succeeds 2026 (jane_record (PList [])) jane_details
            (u "Jane") (u "Doe") _ _ _ _ _ _).
  - vm_compute. reflexivity.
  - vm_compute. reflexivity.
  - vm_compute. reflexivity.
  - vm_compute. reflexivity.
  - vm_compute. reflexivity.
  - right. exists (u "9199999999"), (u "9199999999").
    split; vm_compute; reflexivity.
Defined.

Lemma non_string_birth_date_raises_witness :
  process_item 2026 (PDict numeric_birth_record) = Raise AttributeError.
Proof.
  apply (non_string_birth_date_raises 2026 numeric_birth_record
           numeric_birth_details); vm_compute; reflexivity.
Defined.

Lemma non_object_raises_witness :
  process_item 2026 (PDict null_consultation_record) = Raise AttributeError.
Proof.
  apply (non_object_raises 2026). right. exists null_consultation_record.
  split; [reflexivity|]. right. vm_compute. reflexivity.
Defined.

Lemma age_ignores_month_and_day_witness :
  calculate_age 2026 (PStr (u "1990" ++ 45 :: u "05-01"))
  = calculate_age 2026 (PStr (u "1990")).
Proof.
  apply (age_ignores_month_and_day 2026 (u "1990") (u "05-01")).
  vm_compute. reflexivity.
Defined.

Lemma process_json_data_first_failure_witness :
  process_json_data 2026
    (PList ([raw_with jane_doe (PList [])]
            ++ raw_with jane_only (PList [])
               :: [raw_with jane_doe (PList [])]))
  = Raise TypeError.
Proof.
  apply (process_json_data_first_failure 2026); vm_compute; reflexivity.
Defined.

Lemma process_json_data_not_an_array_witness :
  process_json_data 2026 PNone = Raise TypeError.
Proof.
  apply (process_json_data_not_an_array 2026 PNone). reflexivity.
Defined.

Lemma aggregation_needs_mappings_witness :
  generate_aggregated_data no_medicines_frame = Raise AttributeError.
Proof.
  apply (aggregation_needs_mappings 2026 no_medicines_run no_medicines_frame
           no_medicines_run_frame).
  vm_compute. reflexivity.
Defined.

Lemma aggregation_result_witness :
  exists summary,
    generate_aggregated_data one_active_frame = Ok summary
    /\ appointments summary = 1%nat
    /\ medicines summary = PInt 0.
Proof.
  destruct (generate_aggregated_data one_active_frame) as [summary|e] eqn:Hagg;
    [|vm_compute in Hagg; discriminate Hagg].
  exists summary. split; [reflexivity|].
  destruct (aggregation_result 2026 one_active_run one_active_frame summary
              one_active_run_frame Hagg) as (_ & _ & H1 & _ & H2).
  now split.
Defined.

Lemma active_medicines_counts_flags_witness :
  exists summary,
    generate_aggregated_data one_active_frame = Ok summary
    /\ activeMedicines summary = PInt 1.
Proof.
  destruct (active_medicines_counts_flags 2026 one_active_run one_active_frame
              one_active_run_frame)
    as (summary & H1 & H2);
    [discriminate|vm_compute; reflexivity|vm_compute; reflexivity|].
  exists summary. split; [exact H1|]. rewrite H2. vm_compute. reflexivity.
Defined.

Lemma gender_tally_witness :
  exists summary,
    generate_aggregated_data one_active_frame = Ok summary
    /\ gender summary !! KStr (u "female") = Some 1%nat
    /\ gender summary !! KStr (u "male") = None.
Proof.
  destruct (generate_aggregated_data one_active_frame) as [summary|e] eqn:Hagg;
    [|vm_compute in Hagg; discriminate Hagg].
  exists summary. split; [reflexivity|].
  destruct (gender_tally 2026 one_active_run one_active_frame summary
              one_active_run_frame Hagg) as (H & _).
  split; rewrite H; vm_compute; reflexivity.
Defined.


Lemma phone_hash_is_64_hex_witness :
  exists h,
    dict_lookup (item_with [active_medicine]) (u "phoneNumberHash")
      = Some (PStr h)
    /\ length h = 64%nat.
Proof.
  destruct (phone_hash_is_64_hex 2026 _ _ jane_normalises)
    as (h & H1 & H2 & _); [vm_compute; reflexivity|].
  now exists h.
Defined.
